(** * forgejo-mcp, package [unified]: the documentation registry and the
      verb dispatchers

    A shallow embedding of [tools/unified/schema.go], of the dispatchers of
    [create.go], [get.go], [list.go], [doc.go] (the edit tool), [delete.go],
    [link.go] and [unlink.go], and of the overview formatters of
    [manual.go], followed by the properties claimed of them.

    Go strings are byte sequences and so are Rocq's [string]s; [len] is
    [String.length], [s[:n]] and [s[n:]] are [str_take] and [str_drop].
    A Go map is a [gmap]; the order in which [range] visits its keys is not
    fixed by the language, so the one function that ranges over the registry
    takes that order as an argument. *)

From Stdlib Require Import ZArith String Ascii List.
From Stdlib Require Import Floats.SpecFloat.
From stdpp Require Import gmap strings list fin_maps sorting.

Local Open Scope string_scope.
Local Open Scope list_scope.
Local Open Scope stdpp_scope.

(** ** Strings *)

(** The double quote and the line feed, spelled by their codes. *)
Definition dq : string := String (ascii_of_nat 34) EmptyString.
Definition nl : string := String (ascii_of_nat 10) EmptyString.

(** [qt s] is [s] between double quotes, as in the Go literals. *)
Definition qt (s : string) : string := dq +:+ s +:+ dq.

(** [s[:n]] for [n <= len(s)]. *)
Fixpoint str_take (n : nat) (s : string) : string :=
  match n, s with
  | S n', String c s' => String c (str_take n' s')
  | _, _ => EmptyString
  end.

(** [s[n:]] for [n <= len(s)]. *)
Fixpoint str_drop (n : nat) (s : string) : string :=
  match n, s with
  | S n', String _ s' => str_drop n' s'
  | _, _ => s
  end.

(** [strings.Join(l, sep)]. *)
Fixpoint join_with (sep : string) (l : list string) : string :=
  match l with
  | [] => EmptyString
  | [x] => x
  | x :: rest => x +:+ sep +:+ join_with sep rest
  end.

(** [fmt]'s [%v] of a [[]string]: the elements between square brackets,
    separated by single spaces. *)
Definition fmt_v (l : list string) : string := "[" +:+ join_with " " l +:+ "]".

(** [t] occurs in [s]. *)
Definition contains (s t : string) : Prop := ∃ a b, s = a +:+ t +:+ b.

(** ** schema.go: the data model *)

Definition Action := string.

Definition ActionCreate : Action := "create".
Definition ActionGet    : Action := "get".
Definition ActionList   : Action := "list".
Definition ActionEdit   : Action := "edit".
Definition ActionDelete : Action := "delete".
Definition ActionLink   : Action := "link".
Definition ActionUnlink : Action := "unlink".

Definition Resource := string.

Definition ResourceIssue             : Resource := "issue".
Definition ResourceIssueComment      : Resource := "issue_comment".
Definition ResourceIssueAttachment   : Resource := "issue_attachment".
Definition ResourceLabel             : Resource := "label".
Definition ResourceMilestone         : Resource := "milestone".
Definition ResourceRelease           : Resource := "release".
Definition ResourceReleaseAttachment : Resource := "release_attachment".
Definition ResourceWikiPage          : Resource := "wiki_page".
Definition ResourcePullRequest       : Resource := "pull_request".
Definition ResourceRepository        : Resource := "repository".
Definition ResourceActionTask        : Resource := "action_task".

Definition LinkType := string.

Definition LinkIssueLabel      : LinkType := "issue_label".
Definition LinkIssueDependency : LinkType := "issue_dependency".
Definition LinkIssueBlocking   : LinkType := "issue_blocking".

(** [ParamSpec]: one parameter, for documentation purposes. *)
Record ParamSpec := param {
  Name : string;
  Type_ : string;
  Required : bool;
  ParamDescription : string;
  Enum : list string
}.

(** [ManualEntry]: the documentation of one action+resource or
    action+linktype combination. *)
Record ManualEntry := manualEntry {
  EntryAction : Action;
  EntryResource : Resource;
  EntryLinkType : LinkType;
  Description : string;
  Params : list ParamSpec;
  Example : string
}.

Definition commonRepoParams : list ParamSpec :=
  [ param "owner" "string" true "Repository owner (username or organization)" [];
    param "repo" "string" true "Repository name" [] ].

(** The composite literal of [Manual], key by key in the order of the
    source text. *)
Definition Manual_literal : list (string * ManualEntry) := [
  ("create:issue",
     manualEntry ActionCreate ResourceIssue EmptyString
       "Create a new issue in a repository."
       (commonRepoParams ++
       [ param "title" "string" true "Issue title" [];
         param "body" "string" true "Issue body (markdown)" [];
         param "assignees" "array" false "Usernames to assign" [];
         param "milestone" "integer" false "Milestone ID" [];
         param "labels" "array" false "Label IDs to attach" [];
         param "due_date" "string" false "Due date (RFC3339 format)" [] ])
       ("create_gitea(resource=" +:+ qt "issue" +:+ ", owner=" +:+ qt "org" +:+ ", repo=" +:+ qt "project" +:+ ", title=" +:+ qt "Bug report" +:+ ", body=" +:+ qt "Description..." +:+ ")"));
  ("create:issue_comment",
     manualEntry ActionCreate ResourceIssueComment EmptyString
       "Add a comment to an issue."
       (commonRepoParams ++
       [ param "index" "integer" true "Issue number" [];
         param "body" "string" true "Comment body (markdown)" [] ])
       ("create_gitea(resource=" +:+ qt "issue_comment" +:+ ", owner=" +:+ qt "org" +:+ ", repo=" +:+ qt "project" +:+ ", index=42, body=" +:+ qt "Thanks!" +:+ ")"));
  ("create:label",
     manualEntry ActionCreate ResourceLabel EmptyString
       "Create a new label in a repository."
       (commonRepoParams ++
       [ param "name" "string" true "Label name" [];
         param "color" "string" true "Hex color (without #, e.g., 'ff0000')" [];
         param "description" "string" false "Label description" [] ])
       ("create_gitea(resource=" +:+ qt "label" +:+ ", owner=" +:+ qt "org" +:+ ", repo=" +:+ qt "project" +:+ ", name=" +:+ qt "bug" +:+ ", color=" +:+ qt "ff0000" +:+ ")"));
  ("create:milestone",
     manualEntry ActionCreate ResourceMilestone EmptyString
       "Create a new milestone in a repository."
       (commonRepoParams ++
       [ param "title" "string" true "Milestone title" [];
         param "description" "string" false "Milestone description" [];
         param "due_date" "string" false "Due date (RFC3339 format)" [];
         param "state" "string" false "State: 'open' or 'closed'" ["open"; "closed"] ])
       ("create_gitea(resource=" +:+ qt "milestone" +:+ ", owner=" +:+ qt "org" +:+ ", repo=" +:+ qt "project" +:+ ", title=" +:+ qt "v1.0" +:+ ")"));
  ("create:release",
     manualEntry ActionCreate ResourceRelease EmptyString
       "Create a new release in a repository."
       (commonRepoParams ++
       [ param "tag_name" "string" true "Git tag name" [];
         param "name" "string" true "Release title" [];
         param "body" "string" false "Release notes (markdown)" [];
         param "target_commitish" "string" false "Target branch or commit SHA" [];
         param "draft" "boolean" false "Is draft release" [];
         param "prerelease" "boolean" false "Is prerelease" [] ])
       ("create_gitea(resource=" +:+ qt "release" +:+ ", owner=" +:+ qt "org" +:+ ", repo=" +:+ qt "project" +:+ ", tag_name=" +:+ qt "v1.0.0" +:+ ", name=" +:+ qt "Version 1.0" +:+ ")"));
  ("create:wiki_page",
     manualEntry ActionCreate ResourceWikiPage EmptyString
       "Create a new wiki page in a repository."
       (commonRepoParams ++
       [ param "title" "string" true "Page title" [];
         param "content" "string" true "Page content (markdown)" [];
         param "message" "string" false "Commit message" [] ])
       ("create_gitea(resource=" +:+ qt "wiki_page" +:+ ", owner=" +:+ qt "org" +:+ ", repo=" +:+ qt "project" +:+ ", title=" +:+ qt "Home" +:+ ", content=" +:+ qt "# Welcome" +:+ ")"));
  ("create:pull_request",
     manualEntry ActionCreate ResourcePullRequest EmptyString
       "Create a new pull request."
       (commonRepoParams ++
       [ param "title" "string" true "PR title" [];
         param "body" "string" false "PR description (markdown)" [];
         param "head" "string" true "Source branch (or 'user:branch' for forks)" [];
         param "base" "string" true "Target branch" [];
         param "assignees" "array" false "Usernames to assign" [];
         param "milestone" "integer" false "Milestone ID" [];
         param "labels" "array" false "Label IDs" [] ])
       ("create_gitea(resource=" +:+ qt "pull_request" +:+ ", owner=" +:+ qt "org" +:+ ", repo=" +:+ qt "project" +:+ ", title=" +:+ qt "Feature X" +:+ ", head=" +:+ qt "feature-x" +:+ ", base=" +:+ qt "main" +:+ ")"));
  ("get:issue",
     manualEntry ActionGet ResourceIssue EmptyString
       "Get details of a specific issue."
       (commonRepoParams ++
       [ param "index" "integer" true "Issue number" [] ])
       ("get_gitea(resource=" +:+ qt "issue" +:+ ", owner=" +:+ qt "org" +:+ ", repo=" +:+ qt "project" +:+ ", index=42)"));
  ("get:wiki_page",
     manualEntry ActionGet ResourceWikiPage EmptyString
       "Get content of a specific wiki page."
       (commonRepoParams ++
       [ param "page_name" "string" true "Wiki page name" [] ])
       ("get_gitea(resource=" +:+ qt "wiki_page" +:+ ", owner=" +:+ qt "org" +:+ ", repo=" +:+ qt "project" +:+ ", page_name=" +:+ qt "Home" +:+ ")"));
  ("get:pull_request",
     manualEntry ActionGet ResourcePullRequest EmptyString
       "Get details of a specific pull request."
       (commonRepoParams ++
       [ param "index" "integer" true "PR number" [] ])
       ("get_gitea(resource=" +:+ qt "pull_request" +:+ ", owner=" +:+ qt "org" +:+ ", repo=" +:+ qt "project" +:+ ", index=42)"));
  ("get:repository",
     manualEntry ActionGet ResourceRepository EmptyString
       "Get details of a specific repository."
       (commonRepoParams)
       ("get_gitea(resource=" +:+ qt "repository" +:+ ", owner=" +:+ qt "org" +:+ ", repo=" +:+ qt "project" +:+ ")"));
  ("list:issue",
     manualEntry ActionList ResourceIssue EmptyString
       "List issues in a repository with optional filtering."
       (commonRepoParams ++
       [ param "state" "string" false "Filter by state" ["open"; "closed"; "all"];
         param "labels" "string" false "Comma-separated label names" [];
         param "milestones" "string" false "Comma-separated milestone names/IDs" [];
         param "assignees" "string" false "Comma-separated usernames" [];
         param "q" "string" false "Search query" [];
         param "sort" "string" false "Sort field" ["created"; "updated"; "comments"];
         param "order" "string" false "Sort order" ["asc"; "desc"];
         param "page" "integer" false "Page number" [];
         param "limit" "integer" false "Results per page (max 50)" [];
         param "since" "string" false "Only issues updated after (RFC3339)" [];
         param "before" "string" false "Only issues updated before (RFC3339)" [] ])
       ("list_gitea(resource=" +:+ qt "issue" +:+ ", owner=" +:+ qt "org" +:+ ", repo=" +:+ qt "project" +:+ ", state=" +:+ qt "open" +:+ ", labels=" +:+ qt "bug" +:+ ")"));
  ("list:issue_comment",
     manualEntry ActionList ResourceIssueComment EmptyString
       "List comments on an issue."
       (commonRepoParams ++
       [ param "index" "integer" true "Issue number" [];
         param "since" "string" false "Only comments after (RFC3339)" [];
         param "before" "string" false "Only comments before (RFC3339)" [] ])
       ("list_gitea(resource=" +:+ qt "issue_comment" +:+ ", owner=" +:+ qt "org" +:+ ", repo=" +:+ qt "project" +:+ ", index=42)"));
  ("list:issue_attachment",
     manualEntry ActionList ResourceIssueAttachment EmptyString
       "List attachments on an issue."
       (commonRepoParams ++
       [ param "index" "integer" true "Issue number" [] ])
       ("list_gitea(resource=" +:+ qt "issue_attachment" +:+ ", owner=" +:+ qt "org" +:+ ", repo=" +:+ qt "project" +:+ ", index=42)"));
  ("list:label",
     manualEntry ActionList ResourceLabel EmptyString
       "List all labels in a repository."
       (commonRepoParams)
       ("list_gitea(resource=" +:+ qt "label" +:+ ", owner=" +:+ qt "org" +:+ ", repo=" +:+ qt "project" +:+ ")"));
  ("list:milestone",
     manualEntry ActionList ResourceMilestone EmptyString
       "List milestones in a repository."
       (commonRepoParams ++
       [ param "state" "string" false "Filter by state" ["open"; "closed"; "all"];
         param "name" "string" false "Filter by name" [];
         param "page" "integer" false "Page number" [];
         param "limit" "integer" false "Results per page" [] ])
       ("list_gitea(resource=" +:+ qt "milestone" +:+ ", owner=" +:+ qt "org" +:+ ", repo=" +:+ qt "project" +:+ ", state=" +:+ qt "open" +:+ ")"));
  ("list:release",
     manualEntry ActionList ResourceRelease EmptyString
       "List releases in a repository."
       (commonRepoParams ++
       [ param "page" "integer" false "Page number" [];
         param "limit" "integer" false "Results per page" [] ])
       ("list_gitea(resource=" +:+ qt "release" +:+ ", owner=" +:+ qt "org" +:+ ", repo=" +:+ qt "project" +:+ ")"));
  ("list:release_attachment",
     manualEntry ActionList ResourceReleaseAttachment EmptyString
       "List attachments on a release."
       (commonRepoParams ++
       [ param "id" "integer" true "Release ID" [] ])
       ("list_gitea(resource=" +:+ qt "release_attachment" +:+ ", owner=" +:+ qt "org" +:+ ", repo=" +:+ qt "project" +:+ ", id=1)"));
  ("list:wiki_page",
     manualEntry ActionList ResourceWikiPage EmptyString
       "List all wiki pages in a repository."
       (commonRepoParams)
       ("list_gitea(resource=" +:+ qt "wiki_page" +:+ ", owner=" +:+ qt "org" +:+ ", repo=" +:+ qt "project" +:+ ")"));
  ("list:pull_request",
     manualEntry ActionList ResourcePullRequest EmptyString
       "List pull requests in a repository."
       (commonRepoParams ++
       [ param "state" "string" false "Filter by state" ["open"; "closed"; "all"];
         param "sort" "string" false "Sort field" ["oldest"; "recentupdate"; "leastupdate"; "mostcomment"; "leastcomment"; "priority"];
         param "milestone" "integer" false "Milestone ID" [];
         param "labels" "array" false "Label IDs" [];
         param "page" "integer" false "Page number" [];
         param "limit" "integer" false "Results per page" [] ])
       ("list_gitea(resource=" +:+ qt "pull_request" +:+ ", owner=" +:+ qt "org" +:+ ", repo=" +:+ qt "project" +:+ ", state=" +:+ qt "open" +:+ ")"));
  ("list:repository",
     manualEntry ActionList ResourceRepository EmptyString
       "List repositories. Use 'scope' to choose: 'my' (authenticated user), 'org' (organization), or 'search' (search all)."
       ([ param "scope" "string" true "Listing scope" ["my"; "org"; "search"];
         param "org" "string" false "Organization name (required for scope='org')" [];
         param "q" "string" false "Search query (for scope='search')" [];
         param "topic" "boolean" false "Search in topics (for scope='search')" [];
         param "include_desc" "boolean" false "Search in description (for scope='search')" [];
         param "template" "boolean" false "Only templates (for scope='search')" [];
         param "archived" "boolean" false "Only archived (for scope='search')" [];
         param "private" "boolean" false "Only private (for scope='search')" [];
         param "page" "integer" false "Page number" [];
         param "limit" "integer" false "Results per page" [] ])
       ("list_gitea(resource=" +:+ qt "repository" +:+ ", scope=" +:+ qt "my" +:+ ")"));
  ("list:action_task",
     manualEntry ActionList ResourceActionTask EmptyString
       "List Forgejo Actions tasks (CI/CD runs)."
       (commonRepoParams ++
       [ param "page" "integer" false "Page number" [];
         param "limit" "integer" false "Results per page" [] ])
       ("list_gitea(resource=" +:+ qt "action_task" +:+ ", owner=" +:+ qt "org" +:+ ", repo=" +:+ qt "project" +:+ ")"));
  ("list:issue_dependency",
     manualEntry ActionList "issue_dependency" EmptyString
       "List issues that block this issue (dependencies)."
       (commonRepoParams ++
       [ param "index" "integer" true "Issue number" [] ])
       ("list_gitea(resource=" +:+ qt "issue_dependency" +:+ ", owner=" +:+ qt "org" +:+ ", repo=" +:+ qt "project" +:+ ", index=42)"));
  ("list:issue_blocking",
     manualEntry ActionList "issue_blocking" EmptyString
       "List issues that are blocked by this issue."
       (commonRepoParams ++
       [ param "index" "integer" true "Issue number" [] ])
       ("list_gitea(resource=" +:+ qt "issue_blocking" +:+ ", owner=" +:+ qt "org" +:+ ", repo=" +:+ qt "project" +:+ ", index=42)"));
  ("edit:issue",
     manualEntry ActionEdit ResourceIssue EmptyString
       "Edit an existing issue."
       (commonRepoParams ++
       [ param "index" "integer" true "Issue number" [];
         param "title" "string" false "New title" [];
         param "body" "string" false "New body" [];
         param "state" "string" false "New state" ["open"; "closed"];
         param "assignees" "array" false "New assignees" [];
         param "milestone" "integer" false "New milestone ID" [];
         param "due_date" "string" false "New due date (RFC3339)" [] ])
       ("edit_gitea(resource=" +:+ qt "issue" +:+ ", owner=" +:+ qt "org" +:+ ", repo=" +:+ qt "project" +:+ ", index=42, state=" +:+ qt "closed" +:+ ")"));
  ("edit:issue_comment",
     manualEntry ActionEdit ResourceIssueComment EmptyString
       "Edit an issue comment."
       (commonRepoParams ++
       [ param "id" "integer" true "Comment ID" [];
         param "body" "string" true "New comment body" [] ])
       ("edit_gitea(resource=" +:+ qt "issue_comment" +:+ ", owner=" +:+ qt "org" +:+ ", repo=" +:+ qt "project" +:+ ", id=123, body=" +:+ qt "Updated comment" +:+ ")"));
  ("edit:issue_attachment",
     manualEntry ActionEdit ResourceIssueAttachment EmptyString
       "Edit an issue attachment's name."
       (commonRepoParams ++
       [ param "index" "integer" true "Issue number" [];
         param "attachment_id" "integer" true "Attachment ID" [];
         param "name" "string" true "New filename" [] ])
       ("edit_gitea(resource=" +:+ qt "issue_attachment" +:+ ", owner=" +:+ qt "org" +:+ ", repo=" +:+ qt "project" +:+ ", index=42, attachment_id=1, name=" +:+ qt "new_name.png" +:+ ")"));
  ("edit:label",
     manualEntry ActionEdit ResourceLabel EmptyString
       "Edit a label."
       (commonRepoParams ++
       [ param "id" "integer" true "Label ID" [];
         param "name" "string" false "New name" [];
         param "color" "string" false "New color (hex without #)" [];
         param "description" "string" false "New description" [] ])
       ("edit_gitea(resource=" +:+ qt "label" +:+ ", owner=" +:+ qt "org" +:+ ", repo=" +:+ qt "project" +:+ ", id=1, color=" +:+ qt "00ff00" +:+ ")"));
  ("edit:milestone",
     manualEntry ActionEdit ResourceMilestone EmptyString
       "Edit a milestone."
       (commonRepoParams ++
       [ param "id" "integer" true "Milestone ID" [];
         param "title" "string" false "New title" [];
         param "description" "string" false "New description" [];
         param "due_date" "string" false "New due date (RFC3339)" [];
         param "state" "string" false "New state" ["open"; "closed"] ])
       ("edit_gitea(resource=" +:+ qt "milestone" +:+ ", owner=" +:+ qt "org" +:+ ", repo=" +:+ qt "project" +:+ ", id=1, state=" +:+ qt "closed" +:+ ")"));
  ("edit:release",
     manualEntry ActionEdit ResourceRelease EmptyString
       "Edit a release."
       (commonRepoParams ++
       [ param "id" "integer" true "Release ID" [];
         param "tag_name" "string" false "New tag name" [];
         param "name" "string" false "New title" [];
         param "body" "string" false "New release notes" [];
         param "target_commitish" "string" false "New target" [];
         param "draft" "boolean" false "Is draft" [];
         param "prerelease" "boolean" false "Is prerelease" [] ])
       ("edit_gitea(resource=" +:+ qt "release" +:+ ", owner=" +:+ qt "org" +:+ ", repo=" +:+ qt "project" +:+ ", id=1, prerelease=false)"));
  ("edit:release_attachment",
     manualEntry ActionEdit ResourceReleaseAttachment EmptyString
       "Edit a release attachment's name."
       (commonRepoParams ++
       [ param "id" "integer" true "Release ID" [];
         param "attachment_id" "integer" true "Attachment ID" [];
         param "name" "string" true "New filename" [] ])
       ("edit_gitea(resource=" +:+ qt "release_attachment" +:+ ", owner=" +:+ qt "org" +:+ ", repo=" +:+ qt "project" +:+ ", id=1, attachment_id=2, name=" +:+ qt "app-v1.0.zip" +:+ ")"));
  ("edit:wiki_page",
     manualEntry ActionEdit ResourceWikiPage EmptyString
       "Edit a wiki page."
       (commonRepoParams ++
       [ param "page_name" "string" true "Current page name" [];
         param "title" "string" false "New title" [];
         param "content" "string" true "New content" [];
         param "message" "string" false "Commit message" [] ])
       ("edit_gitea(resource=" +:+ qt "wiki_page" +:+ ", owner=" +:+ qt "org" +:+ ", repo=" +:+ qt "project" +:+ ", page_name=" +:+ qt "Home" +:+ ", content=" +:+ qt "# Updated" +:+ ")"));
  ("delete:issue_comment",
     manualEntry ActionDelete ResourceIssueComment EmptyString
       "Delete an issue comment."
       (commonRepoParams ++
       [ param "id" "integer" true "Comment ID" [] ])
       ("delete_gitea(resource=" +:+ qt "issue_comment" +:+ ", owner=" +:+ qt "org" +:+ ", repo=" +:+ qt "project" +:+ ", id=123)"));
  ("delete:issue_attachment",
     manualEntry ActionDelete ResourceIssueAttachment EmptyString
       "Delete an issue attachment."
       (commonRepoParams ++
       [ param "index" "integer" true "Issue number" [];
         param "attachment_id" "integer" true "Attachment ID" [] ])
       ("delete_gitea(resource=" +:+ qt "issue_attachment" +:+ ", owner=" +:+ qt "org" +:+ ", repo=" +:+ qt "project" +:+ ", index=42, attachment_id=1)"));
  ("delete:label",
     manualEntry ActionDelete ResourceLabel EmptyString
       "Delete a label from a repository."
       (commonRepoParams ++
       [ param "id" "integer" true "Label ID" [] ])
       ("delete_gitea(resource=" +:+ qt "label" +:+ ", owner=" +:+ qt "org" +:+ ", repo=" +:+ qt "project" +:+ ", id=1)"));
  ("delete:milestone",
     manualEntry ActionDelete ResourceMilestone EmptyString
       "Delete a milestone."
       (commonRepoParams ++
       [ param "id" "integer" true "Milestone ID" [] ])
       ("delete_gitea(resource=" +:+ qt "milestone" +:+ ", owner=" +:+ qt "org" +:+ ", repo=" +:+ qt "project" +:+ ", id=1)"));
  ("delete:release",
     manualEntry ActionDelete ResourceRelease EmptyString
       "Delete a release."
       (commonRepoParams ++
       [ param "id" "integer" true "Release ID" [] ])
       ("delete_gitea(resource=" +:+ qt "release" +:+ ", owner=" +:+ qt "org" +:+ ", repo=" +:+ qt "project" +:+ ", id=1)"));
  ("delete:release_attachment",
     manualEntry ActionDelete ResourceReleaseAttachment EmptyString
       "Delete a release attachment."
       (commonRepoParams ++
       [ param "id" "integer" true "Release ID" [];
         param "attachment_id" "integer" true "Attachment ID" [] ])
       ("delete_gitea(resource=" +:+ qt "release_attachment" +:+ ", owner=" +:+ qt "org" +:+ ", repo=" +:+ qt "project" +:+ ", id=1, attachment_id=2)"));
  ("delete:wiki_page",
     manualEntry ActionDelete ResourceWikiPage EmptyString
       "Delete a wiki page."
       (commonRepoParams ++
       [ param "page_name" "string" true "Page name to delete" [] ])
       ("delete_gitea(resource=" +:+ qt "wiki_page" +:+ ", owner=" +:+ qt "org" +:+ ", repo=" +:+ qt "project" +:+ ", page_name=" +:+ qt "OldPage" +:+ ")"));
  ("link:issue_label",
     manualEntry ActionLink EmptyString LinkIssueLabel
       "Add labels to an issue."
       (commonRepoParams ++
       [ param "index" "integer" true "Issue number" [];
         param "labels" "array" true "Label IDs to add" [] ])
       ("link_gitea(type=" +:+ qt "issue_label" +:+ ", owner=" +:+ qt "org" +:+ ", repo=" +:+ qt "project" +:+ ", index=42, labels=[1, 2])"));
  ("link:issue_dependency",
     manualEntry ActionLink EmptyString LinkIssueDependency
       "Add a dependency: issue cannot be closed until dependency_index is closed."
       (commonRepoParams ++
       [ param "index" "integer" true "Dependent issue number" [];
         param "dependency_index" "integer" true "Issue that blocks this one" [] ])
       ("link_gitea(type=" +:+ qt "issue_dependency" +:+ ", owner=" +:+ qt "org" +:+ ", repo=" +:+ qt "project" +:+ ", index=42, dependency_index=10)"));
  ("link:issue_blocking",
     manualEntry ActionLink EmptyString LinkIssueBlocking
       "Add a blocking relationship: blocked_index cannot be closed until index is closed."
       (commonRepoParams ++
       [ param "index" "integer" true "Blocking issue number" [];
         param "blocked_index" "integer" true "Issue that will be blocked" [] ])
       ("link_gitea(type=" +:+ qt "issue_blocking" +:+ ", owner=" +:+ qt "org" +:+ ", repo=" +:+ qt "project" +:+ ", index=42, blocked_index=50)"));
  ("unlink:issue_label",
     manualEntry ActionUnlink EmptyString LinkIssueLabel
       "Remove a label from an issue."
       (commonRepoParams ++
       [ param "index" "integer" true "Issue number" [];
         param "label_id" "integer" true "Label ID to remove" [] ])
       ("unlink_gitea(type=" +:+ qt "issue_label" +:+ ", owner=" +:+ qt "org" +:+ ", repo=" +:+ qt "project" +:+ ", index=42, label_id=1)"));
  ("unlink:issue_dependency",
     manualEntry ActionUnlink EmptyString LinkIssueDependency
       "Remove a dependency relationship."
       (commonRepoParams ++
       [ param "index" "integer" true "Dependent issue number" [];
         param "dependency_index" "integer" true "Dependency to remove" [] ])
       ("unlink_gitea(type=" +:+ qt "issue_dependency" +:+ ", owner=" +:+ qt "org" +:+ ", repo=" +:+ qt "project" +:+ ", index=42, dependency_index=10)"));
  ("unlink:issue_blocking",
     manualEntry ActionUnlink EmptyString LinkIssueBlocking
       "Remove a blocking relationship."
       (commonRepoParams ++
       [ param "index" "integer" true "Blocking issue number" [];
         param "blocked_index" "integer" true "Issue to unblock" [] ])
       ("unlink_gitea(type=" +:+ qt "issue_blocking" +:+ ", owner=" +:+ qt "org" +:+ ", repo=" +:+ qt "project" +:+ ", index=42, blocked_index=50)"))
].

(** [Manual], the registry: a map from the key ["action:kind"] to its
    entry. *)
Definition Manual : gmap string ManualEntry := list_to_map Manual_literal.

(** The orders in which a [for key := range m] may visit the keys of [m]:
    every key once, in an order the language leaves open (the Go runtime
    starts each [range] over a map at a random position). *)
Definition MapRange {V} (m : gmap string V) (keys : list string) : Prop :=
  keys ≡ₚ (map_to_list m).*1.

(** The order of the source text, one of them (see [source_order_range]). *)
Definition source_order : list string := Manual_literal.*1.

(** [LookupManual]: the key is [fmt.Sprintf("%s:%s", action, resourceOrType)]. *)
Definition LookupManual (action : Action) (resourceOrType : string) : option ManualEntry :=
  Manual !! (action +:+ ":" +:+ resourceOrType).

(** One row of the parameter table of [FormatManualEntry]. *)
Definition param_row (p : ParamSpec) : string :=
  let req := if Required p then "yes" else "no" in
  let desc := ParamDescription p in
  let desc :=
    if bool_decide (0 < length (Enum p))
    then desc +:+ " (values: " +:+ fmt_v (Enum p) +:+ ")"
    else desc in
  "| " +:+ Name p +:+ " | " +:+ Type_ p +:+ " | " +:+ req +:+ " | " +:+ desc +:+ " |" +:+ nl.

(** [FormatManualEntry]: the entry as human-readable documentation. The
    variable [result] of the source is threaded through the [let]s. *)
Definition FormatManualEntry (entry : ManualEntry) : string :=
  let result :=
    if bool_decide (EntryResource entry ≠ EmptyString)
    then "## " +:+ EntryAction entry +:+ " " +:+ EntryResource entry +:+ nl +:+ nl
    else "## " +:+ EntryAction entry +:+ " " +:+ EntryLinkType entry +:+ nl +:+ nl in
  let result := result +:+ (Description entry +:+ nl +:+ nl) in
  let result := result +:+ ("### Parameters" +:+ nl +:+ nl) in
  let result := result +:+ ("| Name | Type | Required | Description |" +:+ nl) in
  let result := result +:+ ("|------|------|----------|-------------|" +:+ nl) in
  let result := fold_left (λ result p, result +:+ param_row p) (Params entry) result in
  result +:+ (nl +:+ "### Example" +:+ nl +:+ nl +:+ "```" +:+ nl +:+ Example entry +:+ nl +:+ "```" +:+ nl).

(** [FormatValidationError]: the reason, then the documentation of the
    attempted operation. *)
Definition FormatValidationError (action : Action) (resourceOrType message : string) : string :=
  match LookupManual action resourceOrType with
  | None =>
      "Error: " +:+ message +:+ nl +:+ nl +:+
      "No documentation found for " +:+ action +:+ ":" +:+ resourceOrType
  | Some entry =>
      let result := "Error: " +:+ message +:+ nl +:+ nl in
      let result := result +:+ ("Here's how to use this operation:" +:+ nl +:+ nl) in
      result +:+ FormatManualEntry entry
  end.

(** [ListResourcesForAction]: the loop over the keys of [Manual], visited in
    the order [keys]; [resources] starts as the nil slice and grows by
    [append]. *)
Definition ListResourcesForAction (keys : list string) (action : Action) : list string :=
  let prefix := action +:+ ":" in
  fold_left
    (λ resources key,
       if bool_decide (String.length prefix < String.length key)
          && bool_decide (str_take (String.length prefix) key = prefix)
       then resources ++ [str_drop (String.length prefix) key]
       else resources)
    keys [].

(** [ListLinkTypes]. *)
Definition ListLinkTypes : list string :=
  [LinkIssueLabel; LinkIssueDependency; LinkIssueBlocking].

(** ** The argument bag

    [map[string]any] as decoded from JSON: numbers arrive as [float64]
    (an IEEE 754 binary64 value, here Rocq's [spec_float]). *)
#[local] Set Warnings "-register-all".
Inductive Value :=
  | VNil
  | VBool (b : bool)
  | VNumber (f : spec_float)
  | VString (s : string)
  | VArray (l : list Value)
  | VObject (fields : list (string * Value)).

Abbreviation Args := (gmap string Value).

(** [v, _ := args[k].(string)]: the zero value when [k] is absent or holds
    something else. *)
Definition asString (args : Args) (k : string) : string :=
  match args !! k with Some (VString s) => s | _ => EmptyString end.

(** [v, ok := args[k].(float64)]. *)
Definition asFloat64 (args : Args) (k : string) : option spec_float :=
  match args !! k with Some (VNumber f) => Some f | _ => None end.

(** [v, ok := args[k].([]any)]. *)
Definition asArray (args : Args) (k : string) : option (list Value) :=
  match args !! k with Some (VArray l) => Some l | _ => None end.

(** The [float64] of an integer, rounded to nearest even. *)
Definition float64_of_Z (n : Z) : spec_float := binary_normalize 53 1024 n 0 false.

(** [x <= 0] on [float64]; false on NaN. *)
Definition float64_le0 (x : spec_float) : bool := SFleb x (S754_zero false).

Definition int64_min : Z := - 2 ^ 63.
Definition int64_max : Z := 2 ^ 63 - 1.

(** [int64(f)]: the fraction is discarded. When the value does not fit
    (NaN, an infinity, out of range) Go leaves the result to the
    implementation; amd64 yields the smallest [int64], which is used here. *)
Definition int64 (f : spec_float) : Z :=
  match f with
  | S754_zero _ => 0
  | S754_finite s m e =>
      let magnitude :=
        if (0 <=? e)%Z then (Z.pos m * 2 ^ e)%Z else (Z.pos m / 2 ^ (- e))%Z in
      let n := if s then (- magnitude)%Z else magnitude in
      if bool_decide (int64_min ≤ n ≤ int64_max)%Z then n else int64_min
  | S754_infinity _ | S754_nan => int64_min
  end.

(** [toStringSlice]: [result] starts empty and grows by [append]. *)
Definition toStringSlice (arr : list Value) : list string :=
  fold_left
    (λ result v, match v with VString s => result ++ [s] | _ => result end)
    arr [].

(** [toInt64Slice]. *)
Definition toInt64Slice (arr : list Value) : list Z :=
  fold_left
    (λ result v, match v with VNumber f => result ++ [int64 f] | _ => result end)
    arr [].

(** ** The resource handlers

    A handler first checks its required parameters; every failure of that
    part is returned through [FormatValidationError]. Then it reads its
    optional parameters, calls the forge client and renders the answer:
    that part is the work of external collaborators, and the model records
    only which client method the handler goes on to, with the checked
    values it passes. *)

Inductive Arg :=
  | AString (s : string)
  | AInt64 (n : Z)
  | AInt64s (l : list Z).

Inductive Outcome :=
  | Rejected (err : string)
  | Proceeds (method : string) (checked : list Arg).

Inductive result (A : Type) :=
  | Ok (a : A)
  | Err (msg : string).
Arguments Ok {A} a.
Arguments Err {A} msg.

(** [fmt.Errorf(format)] without operands. Every format the handlers pass
    is free of the percent sign (see [renderings_percent_free]), so the
    message is the format itself. *)
Definition Errorf0 (format : string) : string := format.

(** [extractOwnerRepo]. *)
Definition extractOwnerRepo (args : Args) : result (string * string) :=
  let owner := asString args "owner" in
  let repo := asString args "repo" in
  if bool_decide (owner = EmptyString) then Err "owner is required"
  else if bool_decide (repo = EmptyString) then Err "repo is required"
  else Ok (owner, repo).

(** The three idioms of the handlers, each followed by the rest of the
    handler:
    [owner, repo, err := extractOwnerRepo(args); if err != nil { ... }] *)
Definition ownerRepo (action : Action) (kind : string) (args : Args)
    (rest : string → string → Outcome) : Outcome :=
  match extractOwnerRepo args with
  | Err err => Rejected (Errorf0 (FormatValidationError action kind err))
  | Ok (owner, repo) => rest owner repo
  end.

(** [x, _ := args[name].(string)], then the error when [x] is empty. *)
Definition nonEmptyString (action : Action) (kind : string) (args : Args)
    (name reason : string) (rest : string → Outcome) : Outcome :=
  let x := asString args name in
  if bool_decide (x = EmptyString)
  then Rejected (Errorf0 (FormatValidationError action kind reason))
  else rest x.

(** [x, ok := args[name].(float64); if !ok || x <= 0 { ... }] *)
Definition positiveNumber (action : Action) (kind : string) (args : Args)
    (name reason : string) (rest : spec_float → Outcome) : Outcome :=
  match asFloat64 args name with
  | Some x =>
      if float64_le0 x
      then Rejected (Errorf0 (FormatValidationError action kind reason))
      else rest x
  | None => Rejected (Errorf0 (FormatValidationError action kind reason))
  end.

(** *** create.go *)

Definition createIssue (args : Args) : Outcome :=
  ownerRepo ActionCreate "issue" args (λ owner repo,
  nonEmptyString ActionCreate "issue" args "title" "title is required" (λ title,
  nonEmptyString ActionCreate "issue" args "body" "body is required" (λ body,
  Proceeds "CreateIssue" [AString owner; AString repo; AString title; AString body]))).

Definition createIssueComment (args : Args) : Outcome :=
  ownerRepo ActionCreate "issue_comment" args (λ owner repo,
  positiveNumber ActionCreate "issue_comment" args "index" "index is required" (λ index,
  nonEmptyString ActionCreate "issue_comment" args "body" "body is required" (λ body,
  Proceeds "CreateIssueComment" [AString owner; AString repo; AInt64 (int64 index); AString body]))).

Definition createLabel (args : Args) : Outcome :=
  ownerRepo ActionCreate "label" args (λ owner repo,
  nonEmptyString ActionCreate "label" args "name" "name is required" (λ name,
  nonEmptyString ActionCreate "label" args "color" "color is required" (λ color,
  Proceeds "CreateLabel" [AString owner; AString repo; AString name; AString color]))).

Definition createMilestone (args : Args) : Outcome :=
  ownerRepo ActionCreate "milestone" args (λ owner repo,
  nonEmptyString ActionCreate "milestone" args "title" "title is required" (λ title,
  Proceeds "CreateMilestone" [AString owner; AString repo; AString title])).

Definition createRelease (args : Args) : Outcome :=
  ownerRepo ActionCreate "release" args (λ owner repo,
  nonEmptyString ActionCreate "release" args "tag_name" "tag_name is required" (λ tagName,
  nonEmptyString ActionCreate "release" args "name" "name is required" (λ name,
  Proceeds "CreateRelease" [AString owner; AString repo; AString tagName; AString name]))).

Definition createWikiPage (args : Args) : Outcome :=
  ownerRepo ActionCreate "wiki_page" args (λ owner repo,
  nonEmptyString ActionCreate "wiki_page" args "title" "title is required" (λ title,
  nonEmptyString ActionCreate "wiki_page" args "content" "content is required" (λ content,
  Proceeds "MyCreateWikiPage" [AString owner; AString repo; AString title; AString content]))).

Definition createPullRequest (args : Args) : Outcome :=
  ownerRepo ActionCreate "pull_request" args (λ owner repo,
  nonEmptyString ActionCreate "pull_request" args "title" "title is required" (λ title,
  nonEmptyString ActionCreate "pull_request" args "head" "head is required" (λ head,
  nonEmptyString ActionCreate "pull_request" args "base" "base is required" (λ base,
  Proceeds "CreatePullRequest" [AString owner; AString repo; AString title; AString head; AString base])))).


(** *** get.go *)

Definition getIssue (args : Args) : Outcome :=
  ownerRepo ActionGet "issue" args (λ owner repo,
  positiveNumber ActionGet "issue" args "index" "index is required" (λ index,
  Proceeds "GetIssue" [AString owner; AString repo; AInt64 (int64 index)])).

Definition getWikiPage (args : Args) : Outcome :=
  ownerRepo ActionGet "wiki_page" args (λ owner repo,
  nonEmptyString ActionGet "wiki_page" args "page_name" "page_name is required" (λ pageName,
  Proceeds "MyGetWikiPage" [AString owner; AString repo; AString pageName])).

Definition getPullRequest (args : Args) : Outcome :=
  ownerRepo ActionGet "pull_request" args (λ owner repo,
  positiveNumber ActionGet "pull_request" args "index" "index is required" (λ index,
  Proceeds "GetPullRequest" [AString owner; AString repo; AInt64 (int64 index)])).

Definition getRepository (args : Args) : Outcome :=
  ownerRepo ActionGet "repository" args (λ owner repo,
  Proceeds "GetRepo" [AString owner; AString repo]).


(** *** list.go *)

Definition listIssues (args : Args) : Outcome :=
  ownerRepo ActionList "issue" args (λ owner repo,
  Proceeds "ListRepoIssues" [AString owner; AString repo]).

Definition listIssueComments (args : Args) : Outcome :=
  ownerRepo ActionList "issue_comment" args (λ owner repo,
  positiveNumber ActionList "issue_comment" args "index" "index is required" (λ index,
  Proceeds "ListIssueComments" [AString owner; AString repo; AInt64 (int64 index)])).

Definition listIssueAttachments (args : Args) : Outcome :=
  ownerRepo ActionList "issue_attachment" args (λ owner repo,
  positiveNumber ActionList "issue_attachment" args "index" "index is required" (λ index,
  Proceeds "MyListIssueAttachments" [AString owner; AString repo; AInt64 (int64 index)])).

Definition listLabels (args : Args) : Outcome :=
  ownerRepo ActionList "label" args (λ owner repo,
  Proceeds "ListRepoLabels" [AString owner; AString repo]).

Definition listMilestones (args : Args) : Outcome :=
  ownerRepo ActionList "milestone" args (λ owner repo,
  Proceeds "ListRepoMilestones" [AString owner; AString repo]).

Definition listReleases (args : Args) : Outcome :=
  ownerRepo ActionList "release" args (λ owner repo,
  Proceeds "ListReleases" [AString owner; AString repo]).

Definition listReleaseAttachments (args : Args) : Outcome :=
  ownerRepo ActionList "release_attachment" args (λ owner repo,
  positiveNumber ActionList "release_attachment" args "id" "id is required" (λ id,
  Proceeds "ListReleaseAttachments" [AString owner; AString repo; AInt64 (int64 id)])).

Definition listWikiPages (args : Args) : Outcome :=
  ownerRepo ActionList "wiki_page" args (λ owner repo,
  Proceeds "MyListWikiPages" [AString owner; AString repo]).

Definition listPullRequests (args : Args) : Outcome :=
  ownerRepo ActionList "pull_request" args (λ owner repo,
  Proceeds "ListRepoPullRequests" [AString owner; AString repo]).

Definition listMyRepositories (args : Args) : Outcome :=
  Proceeds "ListMyRepos" [].

Definition listOrgRepositories (args : Args) : Outcome :=
  nonEmptyString ActionList "repository" args "org" "org is required for scope='org'" (λ org,
  Proceeds "ListOrgRepos" [AString org]).

Definition searchRepositories (args : Args) : Outcome :=
  let q := asString args "q" in
  Proceeds "SearchRepos" [AString q].

Definition listRepositories (args : Args) : Outcome :=
  nonEmptyString ActionList "repository" args "scope"
    "scope is required ('my', 'org', or 'search')" (λ scope,
  if bool_decide (scope = "my") then listMyRepositories args
  else if bool_decide (scope = "org") then listOrgRepositories args
  else if bool_decide (scope = "search") then searchRepositories args
  else Rejected (Errorf0 (FormatValidationError ActionList "repository"
                            "scope must be 'my', 'org', or 'search'"))).

Definition listActionTasks (args : Args) : Outcome :=
  ownerRepo ActionList "action_task" args (λ owner repo,
  Proceeds "MyListActionTasks" [AString owner; AString repo]).

Definition listIssueDependencies (args : Args) : Outcome :=
  ownerRepo ActionList "issue_dependency" args (λ owner repo,
  positiveNumber ActionList "issue_dependency" args "index" "index is required" (λ index,
  Proceeds "MyListIssueDependencies" [AString owner; AString repo; AInt64 (int64 index)])).

Definition listIssueBlocking (args : Args) : Outcome :=
  ownerRepo ActionList "issue_blocking" args (λ owner repo,
  positiveNumber ActionList "issue_blocking" args "index" "index is required" (λ index,
  Proceeds "MyListIssueBlocking" [AString owner; AString repo; AInt64 (int64 index)])).


(** *** doc.go (the edit tool) *)

Definition editIssue (args : Args) : Outcome :=
  ownerRepo ActionEdit "issue" args (λ owner repo,
  positiveNumber ActionEdit "issue" args "index" "index is required" (λ index,
  Proceeds "EditIssue" [AString owner; AString repo; AInt64 (int64 index)])).

Definition editIssueComment (args : Args) : Outcome :=
  ownerRepo ActionEdit "issue_comment" args (λ owner repo,
  positiveNumber ActionEdit "issue_comment" args "id" "id is required" (λ id,
  nonEmptyString ActionEdit "issue_comment" args "body" "body is required" (λ body,
  Proceeds "EditIssueComment" [AString owner; AString repo; AInt64 (int64 id); AString body]))).

Definition editIssueAttachment (args : Args) : Outcome :=
  ownerRepo ActionEdit "issue_attachment" args (λ owner repo,
  positiveNumber ActionEdit "issue_attachment" args "index" "index is required" (λ index,
  positiveNumber ActionEdit "issue_attachment" args "attachment_id" "attachment_id is required" (λ attachmentId,
  nonEmptyString ActionEdit "issue_attachment" args "name" "name is required" (λ name,
  Proceeds "MyEditIssueAttachment" [AString owner; AString repo; AInt64 (int64 index); AInt64 (int64 attachmentId); AString name])))).

Definition editLabel (args : Args) : Outcome :=
  ownerRepo ActionEdit "label" args (λ owner repo,
  positiveNumber ActionEdit "label" args "id" "id is required" (λ id,
  Proceeds "EditLabel" [AString owner; AString repo; AInt64 (int64 id)])).

Definition editMilestone (args : Args) : Outcome :=
  ownerRepo ActionEdit "milestone" args (λ owner repo,
  positiveNumber ActionEdit "milestone" args "id" "id is required" (λ id,
  Proceeds "EditMilestone" [AString owner; AString repo; AInt64 (int64 id)])).

Definition editRelease (args : Args) : Outcome :=
  ownerRepo ActionEdit "release" args (λ owner repo,
  positiveNumber ActionEdit "release" args "id" "id is required" (λ id,
  Proceeds "EditRelease" [AString owner; AString repo; AInt64 (int64 id)])).

Definition editReleaseAttachment (args : Args) : Outcome :=
  ownerRepo ActionEdit "release_attachment" args (λ owner repo,
  positiveNumber ActionEdit "release_attachment" args "id" "id is required" (λ id,
  positiveNumber ActionEdit "release_attachment" args "attachment_id" "attachment_id is required" (λ attachmentId,
  nonEmptyString ActionEdit "release_attachment" args "name" "name is required" (λ name,
  Proceeds "EditReleaseAttachment" [AString owner; AString repo; AInt64 (int64 id); AInt64 (int64 attachmentId); AString name])))).

Definition editWikiPage (args : Args) : Outcome :=
  ownerRepo ActionEdit "wiki_page" args (λ owner repo,
  nonEmptyString ActionEdit "wiki_page" args "page_name" "page_name is required" (λ pageName,
  nonEmptyString ActionEdit "wiki_page" args "content" "content is required" (λ content,
  Proceeds "MyEditWikiPage" [AString owner; AString repo; AString pageName; AString content]))).


(** *** delete.go *)

Definition deleteIssueComment (args : Args) : Outcome :=
  ownerRepo ActionDelete "issue_comment" args (λ owner repo,
  positiveNumber ActionDelete "issue_comment" args "id" "id is required" (λ id,
  Proceeds "DeleteIssueComment" [AString owner; AString repo; AInt64 (int64 id)])).

Definition deleteIssueAttachment (args : Args) : Outcome :=
  ownerRepo ActionDelete "issue_attachment" args (λ owner repo,
  positiveNumber ActionDelete "issue_attachment" args "index" "index is required" (λ index,
  positiveNumber ActionDelete "issue_attachment" args "attachment_id" "attachment_id is required" (λ attachmentId,
  Proceeds "MyDeleteIssueAttachment" [AString owner; AString repo; AInt64 (int64 index); AInt64 (int64 attachmentId)]))).

Definition deleteLabel (args : Args) : Outcome :=
  ownerRepo ActionDelete "label" args (λ owner repo,
  positiveNumber ActionDelete "label" args "id" "id is required" (λ id,
  Proceeds "DeleteLabel" [AString owner; AString repo; AInt64 (int64 id)])).

Definition deleteMilestone (args : Args) : Outcome :=
  ownerRepo ActionDelete "milestone" args (λ owner repo,
  positiveNumber ActionDelete "milestone" args "id" "id is required" (λ id,
  Proceeds "DeleteMilestone" [AString owner; AString repo; AInt64 (int64 id)])).

Definition deleteRelease (args : Args) : Outcome :=
  ownerRepo ActionDelete "release" args (λ owner repo,
  positiveNumber ActionDelete "release" args "id" "id is required" (λ id,
  Proceeds "DeleteRelease" [AString owner; AString repo; AInt64 (int64 id)])).

Definition deleteReleaseAttachment (args : Args) : Outcome :=
  ownerRepo ActionDelete "release_attachment" args (λ owner repo,
  positiveNumber ActionDelete "release_attachment" args "id" "id is required" (λ id,
  positiveNumber ActionDelete "release_attachment" args "attachment_id" "attachment_id is required" (λ attachmentId,
  Proceeds "DeleteReleaseAttachment" [AString owner; AString repo; AInt64 (int64 id); AInt64 (int64 attachmentId)]))).

Definition deleteWikiPage (args : Args) : Outcome :=
  ownerRepo ActionDelete "wiki_page" args (λ owner repo,
  nonEmptyString ActionDelete "wiki_page" args "page_name" "page_name is required" (λ pageName,
  Proceeds "MyDeleteWikiPage" [AString owner; AString repo; AString pageName])).


(** *** link.go *)

Definition addIssueLabels (args : Args) : Outcome :=
  ownerRepo ActionLink "issue_label" args (λ owner repo,
  positiveNumber ActionLink "issue_label" args "index" "index is required" (λ index,
  match asArray args "labels" with
  | Some labelsRaw =>
      if bool_decide (length labelsRaw = 0)
      then Rejected (Errorf0 (FormatValidationError ActionLink "issue_label"
                                "labels is required (array of label IDs)"))
      else
        let labelIDs := toInt64Slice labelsRaw in
        Proceeds "AddIssueLabels"
          [AString owner; AString repo; AInt64 (int64 index); AInt64s labelIDs]
  | None =>
      Rejected (Errorf0 (FormatValidationError ActionLink "issue_label"
                           "labels is required (array of label IDs)"))
  end)).

Definition addIssueDependency (args : Args) : Outcome :=
  ownerRepo ActionLink "issue_dependency" args (λ owner repo,
  positiveNumber ActionLink "issue_dependency" args "index" "index is required" (λ index,
  positiveNumber ActionLink "issue_dependency" args "dependency_index" "dependency_index is required" (λ dependencyIndex,
  Proceeds "MyAddIssueDependency" [AString owner; AString repo; AInt64 (int64 index); AInt64 (int64 dependencyIndex)]))).

Definition addIssueBlocking (args : Args) : Outcome :=
  ownerRepo ActionLink "issue_blocking" args (λ owner repo,
  positiveNumber ActionLink "issue_blocking" args "index" "index is required" (λ index,
  positiveNumber ActionLink "issue_blocking" args "blocked_index" "blocked_index is required" (λ blockedIndex,
  Proceeds "MyAddIssueBlocking" [AString owner; AString repo; AInt64 (int64 index); AInt64 (int64 blockedIndex)]))).


(** *** unlink.go *)

Definition removeIssueLabel (args : Args) : Outcome :=
  ownerRepo ActionUnlink "issue_label" args (λ owner repo,
  positiveNumber ActionUnlink "issue_label" args "index" "index is required" (λ index,
  positiveNumber ActionUnlink "issue_label" args "label_id" "label_id is required" (λ labelId,
  Proceeds "DeleteIssueLabel" [AString owner; AString repo; AInt64 (int64 index); AInt64 (int64 labelId)]))).

Definition removeIssueDependency (args : Args) : Outcome :=
  ownerRepo ActionUnlink "issue_dependency" args (λ owner repo,
  positiveNumber ActionUnlink "issue_dependency" args "index" "index is required" (λ index,
  positiveNumber ActionUnlink "issue_dependency" args "dependency_index" "dependency_index is required" (λ dependencyIndex,
  Proceeds "MyRemoveIssueDependency" [AString owner; AString repo; AInt64 (int64 index); AInt64 (int64 dependencyIndex)]))).

Definition removeIssueBlocking (args : Args) : Outcome :=
  ownerRepo ActionUnlink "issue_blocking" args (λ owner repo,
  positiveNumber ActionUnlink "issue_blocking" args "index" "index is required" (λ index,
  positiveNumber ActionUnlink "issue_blocking" args "blocked_index" "blocked_index is required" (λ blockedIndex,
  Proceeds "MyRemoveIssueBlocking" [AString owner; AString repo; AInt64 (int64 index); AInt64 (int64 blockedIndex)]))).

(** ** The dispatchers

    What a dispatcher did with a call: it returned an error of its own, or
    it passed control to the named handler, whose outcome it returns. *)
Inductive Dispatch :=
  | Refused (err : string)
  | Routed (handler : string) (out : Outcome).

(** The [case]s of a dispatcher's [switch]: the discriminator value, the
    method it selects and that method. *)
Record Case := case_ {
  case_value : string;
  case_name : string;
  case_handler : Args → Outcome
}.

(** [switch x { case ...: return impl.h(args) ... default: ... }]: the
    first case equal to [x]. *)
Fixpoint switch (x : string) (cases : list Case) (args : Args)
    (default : Dispatch) : Dispatch :=
  match cases with
  | [] => default
  | c :: rest =>
      if bool_decide (x = case_value c)
      then Routed (case_name c) (case_handler c args)
      else switch x rest args default
  end.

Definition CreateImpl_cases : list Case :=
  [ case_ "issue" "createIssue" createIssue;
    case_ "issue_comment" "createIssueComment" createIssueComment;
    case_ "label" "createLabel" createLabel;
    case_ "milestone" "createMilestone" createMilestone;
    case_ "release" "createRelease" createRelease;
    case_ "wiki_page" "createWikiPage" createWikiPage;
    case_ "pull_request" "createPullRequest" createPullRequest ].

Definition GetImpl_cases : list Case :=
  [ case_ "issue" "getIssue" getIssue;
    case_ "wiki_page" "getWikiPage" getWikiPage;
    case_ "pull_request" "getPullRequest" getPullRequest;
    case_ "repository" "getRepository" getRepository ].

Definition ListImpl_cases : list Case :=
  [ case_ "issue" "listIssues" listIssues;
    case_ "issue_comment" "listIssueComments" listIssueComments;
    case_ "issue_attachment" "listIssueAttachments" listIssueAttachments;
    case_ "label" "listLabels" listLabels;
    case_ "milestone" "listMilestones" listMilestones;
    case_ "release" "listReleases" listReleases;
    case_ "release_attachment" "listReleaseAttachments" listReleaseAttachments;
    case_ "wiki_page" "listWikiPages" listWikiPages;
    case_ "pull_request" "listPullRequests" listPullRequests;
    case_ "repository" "listRepositories" listRepositories;
    case_ "action_task" "listActionTasks" listActionTasks;
    case_ "issue_dependency" "listIssueDependencies" listIssueDependencies;
    case_ "issue_blocking" "listIssueBlocking" listIssueBlocking ].

Definition EditImpl_cases : list Case :=
  [ case_ "issue" "editIssue" editIssue;
    case_ "issue_comment" "editIssueComment" editIssueComment;
    case_ "issue_attachment" "editIssueAttachment" editIssueAttachment;
    case_ "label" "editLabel" editLabel;
    case_ "milestone" "editMilestone" editMilestone;
    case_ "release" "editRelease" editRelease;
    case_ "release_attachment" "editReleaseAttachment" editReleaseAttachment;
    case_ "wiki_page" "editWikiPage" editWikiPage ].

Definition DeleteImpl_cases : list Case :=
  [ case_ "issue_comment" "deleteIssueComment" deleteIssueComment;
    case_ "issue_attachment" "deleteIssueAttachment" deleteIssueAttachment;
    case_ "label" "deleteLabel" deleteLabel;
    case_ "milestone" "deleteMilestone" deleteMilestone;
    case_ "release" "deleteRelease" deleteRelease;
    case_ "release_attachment" "deleteReleaseAttachment" deleteReleaseAttachment;
    case_ "wiki_page" "deleteWikiPage" deleteWikiPage ].

Definition LinkImpl_cases : list Case :=
  [ case_ "issue_label" "addIssueLabels" addIssueLabels;
    case_ "issue_dependency" "addIssueDependency" addIssueDependency;
    case_ "issue_blocking" "addIssueBlocking" addIssueBlocking ].

Definition UnlinkImpl_cases : list Case :=
  [ case_ "issue_label" "removeIssueLabel" removeIssueLabel;
    case_ "issue_dependency" "removeIssueDependency" removeIssueDependency;
    case_ "issue_blocking" "removeIssueBlocking" removeIssueBlocking ].

(** The [Handler] of [CreateImpl], [GetImpl], [ListImpl], [EditImpl] and
    [DeleteImpl]: the five have the same text up to the action and the
    cases. [keys] is the order in which a call of [ListResourcesForAction]
    made by this dispatch visits the registry. *)
Definition resourceHandler (action : Action) (cases : list Case)
    (keys : list string) (args : Args) : Dispatch :=
  let resource := asString args "resource" in
  if bool_decide (resource = EmptyString) then
    let resources := ListResourcesForAction keys action in
    Refused ("resource is required. Valid resources: " +:+ fmt_v resources)
  else
    match LookupManual action resource with
    | None =>
        let resources := ListResourcesForAction keys action in
        Refused ("unknown resource '" +:+ resource +:+ "'. Valid resources: "
                 +:+ fmt_v resources)
    | Some _ =>
        switch resource cases args
          (Refused (Errorf0 (FormatValidationError action resource "not implemented")))
    end.

Definition CreateImpl_Handler := resourceHandler ActionCreate CreateImpl_cases.
Definition GetImpl_Handler    := resourceHandler ActionGet GetImpl_cases.
Definition ListImpl_Handler   := resourceHandler ActionList ListImpl_cases.
Definition EditImpl_Handler   := resourceHandler ActionEdit EditImpl_cases.
Definition DeleteImpl_Handler := resourceHandler ActionDelete DeleteImpl_cases.

(** The [Handler] of [LinkImpl] and [UnlinkImpl]. *)
Definition typeHandler (action : Action) (cases : list Case)
    (args : Args) : Dispatch :=
  let linkType := asString args "type" in
  if bool_decide (linkType = EmptyString) then
    Refused ("type is required. Valid types: " +:+ fmt_v ListLinkTypes)
  else
    match LookupManual action linkType with
    | None =>
        Refused ("unknown type '" +:+ linkType +:+ "'. Valid types: "
                 +:+ fmt_v ListLinkTypes)
    | Some _ =>
        switch linkType cases args
          (Refused (Errorf0 (FormatValidationError action linkType "not implemented")))
    end.

Definition LinkImpl_Handler   := typeHandler ActionLink LinkImpl_cases.
Definition UnlinkImpl_Handler := typeHandler ActionUnlink UnlinkImpl_cases.

(** The seven verbs, each with its action, its discriminator field, its
    cases and its dispatcher. *)
Inductive Verb := Create | Get | List_ | Edit | Delete | Link | Unlink.

Definition verbs : list Verb := [Create; Get; List_; Edit; Delete; Link; Unlink].

Definition verb_action (v : Verb) : Action :=
  match v with
  | Create => ActionCreate | Get => ActionGet | List_ => ActionList
  | Edit => ActionEdit | Delete => ActionDelete
  | Link => ActionLink | Unlink => ActionUnlink
  end.

Definition discriminator (v : Verb) : string :=
  match v with
  | Link | Unlink => "type"
  | _ => "resource"
  end.

Definition verb_cases (v : Verb) : list Case :=
  match v with
  | Create => CreateImpl_cases | Get => GetImpl_cases | List_ => ListImpl_cases
  | Edit => EditImpl_cases | Delete => DeleteImpl_cases
  | Link => LinkImpl_cases | Unlink => UnlinkImpl_cases
  end.

Definition Handler (v : Verb) (keys : list string) (args : Args) : Dispatch :=
  match v with
  | Create => CreateImpl_Handler keys args
  | Get => GetImpl_Handler keys args
  | List_ => ListImpl_Handler keys args
  | Edit => EditImpl_Handler keys args
  | Delete => DeleteImpl_Handler keys args
  | Link => LinkImpl_Handler args
  | Unlink => UnlinkImpl_Handler args
  end.

(** The valid set a dispatcher quotes in its own errors. *)
Definition valid_set (v : Verb) (keys : list string) : list string :=
  match v with
  | Link | Unlink => ListLinkTypes
  | _ => ListResourcesForAction keys (verb_action v)
  end.

(** ** manual.go: the documentation tool *)

Record ManualParams := manualParams {
  ParamsAction : string;
  ParamsResource : string;
  ParamsType : string
}.

(** What the documentation tool returns: a text, or an error. *)
Inductive ToolResult :=
  | TextContent (text : string)
  | ToolError (err : string).

(** [sort.Strings]: the strings in increasing byte order. The sorted
    arrangement of a list is unique ([sort_Strings_unique]), so the sorting
    algorithm does not matter. *)
Definition sort_Strings (l : list string) : list string := merge_sort String.le l.

(** The zero [ManualEntry], which [entry, _ := LookupManual(...)] leaves in
    [entry] when the key is missing. *)
Definition zeroEntry : ManualEntry :=
  manualEntry EmptyString EmptyString EmptyString EmptyString [] EmptyString.

(** [if len(desc) > 60 { desc = desc[:57] + "..." }], the description cell
    of both overview tables. *)
Definition truncated (desc : string) : string :=
  if bool_decide (60 < String.length desc) then str_take 57 desc +:+ "..." else desc.

(** The row that one turn of either overview loop writes to the builder. *)
Definition overview_row (action : Action) (kind : string) : string :=
  let entry := default zeroEntry (LookupManual action kind) in
  let desc := truncated (Description entry) in
  "| `" +:+ kind +:+ "` | " +:+ desc +:+ " |" +:+ nl.

(** [formatOverview]: the [strings.Builder] is the accumulated text. *)
Definition formatOverview : string :=
  let sb := EmptyString in
  let sb := sb +:+ ("# Gitea MCP Tools" +:+ nl +:+ nl) in
  let sb := sb +:+ ("This server provides unified tools for Forgejo/Gitea operations." +:+ nl +:+ nl) in
  let sb := sb +:+ ("## Available Actions" +:+ nl +:+ nl) in
  let sb := sb +:+ ("| Action | Description |" +:+ nl) in
  let sb := sb +:+ ("|--------|-------------|" +:+ nl) in
  let sb := sb +:+ ("| `create_gitea` | Create resources (issues, labels, milestones, etc.) |" +:+ nl) in
  let sb := sb +:+ ("| `get_gitea` | Get a single resource by ID/name |" +:+ nl) in
  let sb := sb +:+ ("| `list_gitea` | List resources with filtering |" +:+ nl) in
  let sb := sb +:+ ("| `edit_gitea` | Edit existing resources |" +:+ nl) in
  let sb := sb +:+ ("| `delete_gitea` | Delete resources |" +:+ nl) in
  let sb := sb +:+ ("| `link_gitea` | Create relationships (labels to issues, dependencies) |" +:+ nl) in
  let sb := sb +:+ ("| `unlink_gitea` | Remove relationships |" +:+ nl) in
  let sb := sb +:+ nl in
  let sb := sb +:+ ("## How to Use" +:+ nl +:+ nl) in
  let sb := sb +:+ ("Each tool takes a `resource` parameter (or `type` for link/unlink) to specify what you're operating on." +:+ nl +:+ nl) in
  let sb := sb +:+ ("**Examples:**" +:+ nl) in
  let sb := sb +:+ ("```" +:+ nl) in
  let sb := sb +:+ ("create_gitea(resource=" +:+ qt "issue" +:+ ", owner=" +:+ qt "org" +:+ ", repo=" +:+ qt "project" +:+ ", title=" +:+ qt "Bug" +:+ ", body=" +:+ qt "..." +:+ ")" +:+ nl) in
  let sb := sb +:+ ("list_gitea(resource=" +:+ qt "label" +:+ ", owner=" +:+ qt "org" +:+ ", repo=" +:+ qt "project" +:+ ")" +:+ nl) in
  let sb := sb +:+ ("link_gitea(type=" +:+ qt "issue_label" +:+ ", owner=" +:+ qt "org" +:+ ", repo=" +:+ qt "project" +:+ ", index=42, labels=[1,2])" +:+ nl) in
  let sb := sb +:+ ("```" +:+ nl +:+ nl) in
  let sb := sb +:+ ("Call `gitea_manual(action=" +:+ qt "create" +:+ ")` to see resources for a specific action." +:+ nl) in
  let sb := sb +:+ ("Call `gitea_manual(action=" +:+ qt "create" +:+ ", resource=" +:+ qt "issue" +:+ ")` for full documentation." +:+ nl) in
  sb.

(** [formatResourcesForAction]: the resources of the action, sorted, one
    row each. *)
Definition formatResourcesForAction (keys : list string) (action : Action) : string :=
  let resources := ListResourcesForAction keys action in
  let resources := sort_Strings resources in
  let sb := EmptyString in
  let sb := sb +:+ ("# " +:+ action +:+ "_gitea Resources" +:+ nl +:+ nl) in
  let sb := sb +:+ ("| Resource | Description |" +:+ nl) in
  let sb := sb +:+ ("|----------|-------------|" +:+ nl) in
  let sb := fold_left (λ sb res, sb +:+ overview_row action res) resources sb in
  let sb := sb +:+ (nl +:+ "Call `gitea_manual(action=" +:+ qt action +:+ ", resource="
                    +:+ qt "<resource>" +:+ ")` for full documentation." +:+ nl) in
  sb.

(** [formatLinkTypes]: the link types in the order of [ListLinkTypes]. *)
Definition formatLinkTypes (action : Action) : string :=
  let types := ListLinkTypes in
  let sb := EmptyString in
  let sb := sb +:+ ("# " +:+ action +:+ "_gitea Link Types" +:+ nl +:+ nl) in
  let sb := sb +:+ ("| Type | Description |" +:+ nl) in
  let sb := sb +:+ ("|------|-------------|" +:+ nl) in
  let sb := fold_left (λ sb t, sb +:+ overview_row action t) types sb in
  let sb := sb +:+ (nl +:+ "Call `gitea_manual(action=" +:+ qt action +:+ ", type="
                    +:+ qt "<type>" +:+ ")` for full documentation." +:+ nl) in
  sb.

(** The [Handler] of [ManualImpl]: the level of documentation is selected
    by the fields that are present. *)
Definition ManualImpl_Handler (keys : list string) (args : ManualParams) : ToolResult :=
  if bool_decide (ParamsAction args = EmptyString) then
    TextContent formatOverview
  else if bool_decide (ParamsAction args = "link") || bool_decide (ParamsAction args = "unlink") then
    if bool_decide (ParamsType args = EmptyString) then
      TextContent (formatLinkTypes (ParamsAction args))
    else
      match LookupManual (ParamsAction args) (ParamsType args) with
      | None =>
          ToolError ("unknown link type '" +:+ ParamsType args +:+ "' for action '"
                     +:+ ParamsAction args +:+ "'. Valid types: " +:+ fmt_v ListLinkTypes)
      | Some entry => TextContent (FormatManualEntry entry)
      end
  else
    if bool_decide (ParamsResource args = EmptyString) then
      TextContent (formatResourcesForAction keys (ParamsAction args))
    else
      match LookupManual (ParamsAction args) (ParamsResource args) with
      | None =>
          let resources := ListResourcesForAction keys (ParamsAction args) in
          ToolError ("unknown resource '" +:+ ParamsResource args +:+ "' for action '"
                     +:+ ParamsAction args +:+ "'. Valid resources: " +:+ fmt_v resources)
      | Some entry => TextContent (FormatManualEntry entry)
      end.

(** ** Auxiliary definitions of the statements *)

(** What one turn of the loop of [ListResourcesForAction] appends for
    [key], if anything. *)
Definition resource_of (prefix key : string) : option string :=
  if bool_decide (String.length prefix < String.length key)
     && bool_decide (str_take (String.length prefix) key = prefix)
  then Some (str_drop (String.length prefix) key)
  else None.

(** The last byte of [s] is a colon. *)
Fixpoint ends_with_colon (s : string) : bool :=
  match s with
  | EmptyString => false
  | String c EmptyString => bool_decide (c = ":"%char)
  | String _ rest => ends_with_colon rest
  end.

(** The number of colons of [s]. *)
Fixpoint colons (s : string) : nat :=
  match s with
  | EmptyString => 0
  | String c rest => (if bool_decide (c = ":"%char) then 1 else 0) + colons rest
  end.

(** [k] cut at its first colon. *)
Fixpoint split_key (k : string) : string * string :=
  match k with
  | EmptyString => (EmptyString, EmptyString)
  | String c rest =>
      if bool_decide (c = ":"%char) then (EmptyString, rest)
      else (String c (split_key rest).1, (split_key rest).2)
  end.

(** The registry row by row: action, kind, entry. *)
Definition registry_rows : list (Action * string * ManualEntry) :=
  (λ ke, (split_key ke.1, ke.2)) <$> Manual_literal.

(** No byte of [s] is a percent sign. *)
Fixpoint percent_free (s : string) : bool :=
  match s with
  | EmptyString => true
  | String c rest => negb (bool_decide (c = "%"%char)) && percent_free rest
  end.

(** Every byte of [s] is below 128: bytes and characters coincide. *)
Fixpoint is_ascii (s : string) : bool :=
  match s with
  | EmptyString => true
  | String c rest => bool_decide (nat_of_ascii c < 128) && is_ascii rest
  end.

(** The rows of a table, one after the other. *)
Definition concat_rows (rows : list string) : string :=
  foldr String.append EmptyString rows.

(** The verb of an action and the case of a kind, if any. *)
Definition verb_of (action : Action) : option Verb :=
  head (filter (λ v, verb_action v = action) verbs).

Definition case_of (v : Verb) (kind : string) : option Case :=
  head (filter (λ c, case_value c = kind) (verb_cases v)).

(** A handler treats the parameter [p] as required when it rejects every
    call in which [p] is absent. *)
Definition treats_as_required (h : Args → Outcome) (p : string) : Prop :=
  ∀ args : Args, args !! p = None → ∃ err, h args = Rejected err.

Definition accepts (o : Outcome) : bool :=
  match o with Proceeds _ _ => true | Rejected _ => false end.

(** A value of the documented type of [p]: the first allowed value of an
    enumerated string, the number one, an array holding it. *)
Definition sample_value (p : ParamSpec) : Value :=
  if bool_decide (Type_ p = "string") then VString (default "x" (head (Enum p)))
  else if bool_decide (Type_ p = "integer") then VNumber (float64_of_Z 1)
  else if bool_decide (Type_ p = "boolean") then VBool true
  else if bool_decide (Type_ p = "array") then VArray [VNumber (float64_of_Z 1)]
  else VNil.

(** The call that supplies the parameters documented as required, and no
    other. *)
Definition required_only (e : ManualEntry) : Args :=
  list_to_map ((λ p, (Name p, sample_value p)) <$> filter (λ p, Required p = true) (Params e)).

(** The checks made of each row of the registry. *)
Definition documented_row (row : Action * string * ManualEntry) : bool :=
  let '(action, kind, e) := row in
  bool_decide (Description e ≠ EmptyString)
  && bool_decide (Example e ≠ EmptyString)
  && is_ascii (Description e)
  && percent_free (FormatManualEntry e)
  && match verb_of action with
     | Some v =>
         match case_of v kind with
         | Some c => accepts (case_handler c (required_only e))
         | None => false
         end
     | None => false
     end.

(** The kinds of the source text, verb by verb. *)
Definition create_kinds : list string :=
  ["issue"; "issue_comment"; "label"; "milestone"; "release"; "wiki_page"; "pull_request"].

Definition list_kinds : list string :=
  ["issue"; "issue_comment"; "issue_attachment"; "label"; "milestone"; "release";
   "release_attachment"; "wiki_page"; "pull_request"; "repository"; "action_task";
   "issue_dependency"; "issue_blocking"].

Definition delete_kinds : list string :=
  ["issue_attachment"; "issue_comment"; "label"; "milestone"; "release";
   "release_attachment"; "wiki_page"].

(** The error of a dispatcher for a missing discriminator, and the one of a
    resource dispatcher for an unknown resource. *)
Definition missing_message (v : Verb) (valid : list string) : string :=
  match v with
  | Link | Unlink => "type is required. Valid types: " +:+ fmt_v valid
  | _ => "resource is required. Valid resources: " +:+ fmt_v valid
  end.

Definition unknown_message (resource : string) (valid : list string) : string :=
  "unknown resource '" +:+ resource +:+ "'. Valid resources: " +:+ fmt_v valid.

(** What [toInt64Slice] and [toStringSlice] keep of one element. *)
Definition as_int64 (v : Value) : option Z :=
  match v with VNumber f => Some (int64 f) | _ => None end.

Definition as_string (v : Value) : option string :=
  match v with VString s => Some s | _ => None end.

(** A call of link with type [issue_label] on issue 5 of [o/r]. *)
Definition label_call (labels : list Value) : Args :=
  list_to_map
    [ ("type", VString "issue_label"); ("owner", VString "o"); ("repo", VString "r");
      ("index", VNumber (float64_of_Z 5)); ("labels", VArray labels) ].

(** ** Further definitions of the statements *)

(** The error of the link and unlink dispatchers for an unknown type. *)
Definition unknown_type_message (linkType : string) (valid : list string) : string :=
  "unknown type '" +:+ linkType +:+ "'. Valid types: " +:+ fmt_v valid.

(** The error of the dispatcher of [v] for a discriminator that is not
    registered. *)
Definition unregistered_message (v : Verb) (d : string) (valid : list string) : string :=
  match v with
  | Link | Unlink => unknown_type_message d valid
  | _ => unknown_message d valid
  end.

(** Every error that [o] may carry is the enrichment of some reason with the
    documentation of [action] and [kind]. *)
Definition enriched (action : Action) (kind : string) (o : Outcome) : Prop :=
  ∀ err, o = Rejected err → ∃ reason, err = FormatValidationError action kind reason.









(** ** The tool definitions

    [mcp.Tool] with its annotations and its input schema, as far as the
    [Definition] methods fill them: a property of the schema has a type, a
    description and the allowed values, if enumerated; [AdditionalProperties]
    is [true] when the empty schema, which admits every further field, is
    given. *)
Record ToolAnnotations := toolAnnotations {
  ReadOnlyHint : bool;
  DestructiveHint : option bool;
  IdempotentHint : bool
}.

Record PropertySchema := propertySchema {
  PropertyType : string;
  PropertyDescription : string;
  PropertyEnum : list string
}.

Record InputSchema := inputSchema {
  SchemaType : string;
  Properties : gmap string PropertySchema;
  SchemaRequired : list string;
  AdditionalProperties : bool
}.

Record Tool := tool {
  ToolName : string;
  ToolTitle : string;
  ToolDescription : string;
  Annotations : ToolAnnotations;
  Schema : InputSchema
}.

(** [ManualImpl.Definition]. *)
Definition ManualImpl_Definition : Tool :=
  tool "gitea_manual" "Gitea Documentation"
    ("Look up documentation for Gitea operations." +:+ nl
     +:+ "Call without arguments to see all available actions." +:+ nl
     +:+ "Call with just 'action' to see resources for that action." +:+ nl
     +:+ "Call with 'action' and 'resource' (or 'type' for link/unlink) for full documentation.")
    (toolAnnotations true None true)
    (inputSchema "object"
       (list_to_map
        [
          ("action", propertySchema "string" "Action to look up: create, get, list, edit, delete, link, unlink"
             ["create"; "get"; "list"; "edit"; "delete"; "link"; "unlink"]);
          ("resource", propertySchema "string" "Resource type (for create/get/list/edit/delete actions)"
             []);
          ("type", propertySchema "string" "Link type (for link/unlink actions): issue_label, issue_dependency, issue_blocking"
             ["issue_label"; "issue_dependency"; "issue_blocking"]) ])
       []
       false).

(** [CreateImpl.Definition]. *)
Definition CreateImpl_Definition : Tool :=
  tool "create_gitea" "Create Gitea Resource"
    ("Create a resource in Forgejo/Gitea." +:+ nl
     +:+ "Resources: issue, issue_comment, label, milestone, release, wiki_page, pull_request." +:+ nl
     +:+ "Use gitea_manual(action=" +:+ qt "create" +:+ ") for details.")
    (toolAnnotations false (Some false) false)
    (inputSchema "object"
       (list_to_map
        [
          ("resource", propertySchema "string" "Resource type to create"
             ["issue"; "issue_comment"; "label"; "milestone"; "release"; "wiki_page"; "pull_request"]);
          ("owner", propertySchema "string" "Repository owner"
             []);
          ("repo", propertySchema "string" "Repository name"
             []) ])
       ["resource"; "owner"; "repo"]
       true).

(** [GetImpl.Definition]. *)
Definition GetImpl_Definition : Tool :=
  tool "get_gitea" "Get Gitea Resource"
    ("Get details of a single resource from Forgejo/Gitea." +:+ nl
     +:+ "Resources: issue, wiki_page, pull_request, repository." +:+ nl
     +:+ "Use gitea_manual(action=" +:+ qt "get" +:+ ") for details.")
    (toolAnnotations true None true)
    (inputSchema "object"
       (list_to_map
        [
          ("resource", propertySchema "string" "Resource type to get"
             ["issue"; "wiki_page"; "pull_request"; "repository"]);
          ("owner", propertySchema "string" "Repository owner"
             []);
          ("repo", propertySchema "string" "Repository name"
             []) ])
       ["resource"; "owner"; "repo"]
       true).

(** [ListImpl.Definition]. *)
Definition ListImpl_Definition : Tool :=
  tool "list_gitea" "List Gitea Resources"
    ("List resources from Forgejo/Gitea with filtering." +:+ nl
     +:+ "Resources: issue, issue_comment, issue_attachment, label, milestone, release, release_attachment, wiki_page, pull_request, repository, action_task, issue_dependency, issue_blocking." +:+ nl
     +:+ "Use gitea_manual(action=" +:+ qt "list" +:+ ") for details.")
    (toolAnnotations true None true)
    (inputSchema "object"
       (list_to_map
        [
          ("resource", propertySchema "string" "Resource type to list"
             ["issue"; "issue_comment"; "issue_attachment"; "label"; "milestone"; "release"; "release_attachment"; "wiki_page"; "pull_request"; "repository"; "action_task"; "issue_dependency"; "issue_blocking"]);
          ("owner", propertySchema "string" "Repository owner (not required for repository with scope='my')"
             []);
          ("repo", propertySchema "string" "Repository name (not required for repository listing)"
             []) ])
       ["resource"]
       true).

(** [EditImpl.Definition]. *)
Definition EditImpl_Definition : Tool :=
  tool "edit_gitea" "Edit Gitea Resource"
    ("Edit an existing resource in Forgejo/Gitea." +:+ nl
     +:+ "Resources: issue, issue_comment, issue_attachment, label, milestone, release, release_attachment, wiki_page." +:+ nl
     +:+ "Use gitea_manual(action=" +:+ qt "edit" +:+ ") for details.")
    (toolAnnotations false (Some false) true)
    (inputSchema "object"
       (list_to_map
        [
          ("resource", propertySchema "string" "Resource type to edit"
             ["issue"; "issue_comment"; "issue_attachment"; "label"; "milestone"; "release"; "release_attachment"; "wiki_page"]);
          ("owner", propertySchema "string" "Repository owner"
             []);
          ("repo", propertySchema "string" "Repository name"
             []) ])
       ["resource"; "owner"; "repo"]
       true).

(** [DeleteImpl.Definition]. *)
Definition DeleteImpl_Definition : Tool :=
  tool "delete_gitea" "Delete Gitea Resource"
    ("Delete a resource from Forgejo/Gitea. This action cannot be undone." +:+ nl
     +:+ "Resources: issue_comment, issue_attachment, label, milestone, release, release_attachment, wiki_page." +:+ nl
     +:+ "Use gitea_manual(action=" +:+ qt "delete" +:+ ") for details.")
    (toolAnnotations false (Some true) true)
    (inputSchema "object"
       (list_to_map
        [
          ("resource", propertySchema "string" "Resource type to delete"
             ["issue_comment"; "issue_attachment"; "label"; "milestone"; "release"; "release_attachment"; "wiki_page"]);
          ("owner", propertySchema "string" "Repository owner"
             []);
          ("repo", propertySchema "string" "Repository name"
             []) ])
       ["resource"; "owner"; "repo"]
       true).

(** [LinkImpl.Definition]. *)
Definition LinkImpl_Definition : Tool :=
  tool "link_gitea" "Link Gitea Resources"
    ("Create relationships between resources in Forgejo/Gitea." +:+ nl
     +:+ "Types: issue_label (add labels to issue), issue_dependency (issue depends on another), issue_blocking (issue blocks another)." +:+ nl
     +:+ "Use gitea_manual(action=" +:+ qt "link" +:+ ") for details.")
    (toolAnnotations false (Some false) true)
    (inputSchema "object"
       (list_to_map
        [
          ("type", propertySchema "string" "Link type"
             ["issue_label"; "issue_dependency"; "issue_blocking"]);
          ("owner", propertySchema "string" "Repository owner"
             []);
          ("repo", propertySchema "string" "Repository name"
             []) ])
       ["type"; "owner"; "repo"]
       true).

(** [UnlinkImpl.Definition]. *)
Definition UnlinkImpl_Definition : Tool :=
  tool "unlink_gitea" "Unlink Gitea Resources"
    ("Remove relationships between resources in Forgejo/Gitea." +:+ nl
     +:+ "Types: issue_label (remove label from issue), issue_dependency (remove dependency), issue_blocking (remove blocking)." +:+ nl
     +:+ "Use gitea_manual(action=" +:+ qt "unlink" +:+ ") for details.")
    (toolAnnotations false (Some true) true)
    (inputSchema "object"
       (list_to_map
        [
          ("type", propertySchema "string" "Link type to remove"
             ["issue_label"; "issue_dependency"; "issue_blocking"]);
          ("owner", propertySchema "string" "Repository owner"
             []);
          ("repo", propertySchema "string" "Repository name"
             []) ])
       ["type"; "owner"; "repo"]
       true).

(** The definition of the tool of a verb, and the eight tools in the order
    in which [RegisterAll] registers their implementations. *)
Definition verb_tool (v : Verb) : Tool :=
  match v with
  | Create => CreateImpl_Definition | Get => GetImpl_Definition
  | List_ => ListImpl_Definition | Edit => EditImpl_Definition
  | Delete => DeleteImpl_Definition
  | Link => LinkImpl_Definition | Unlink => UnlinkImpl_Definition
  end.

Definition RegisterAll : list Tool :=
  [ ManualImpl_Definition; CreateImpl_Definition; GetImpl_Definition;
    ListImpl_Definition; EditImpl_Definition; DeleteImpl_Definition;
    LinkImpl_Definition; UnlinkImpl_Definition ].

(** The allowed values of the field [name] in the schema of [t]; none when
    the schema has no such field. *)
Definition schema_enum (t : Tool) (name : string) : list string :=
  match Properties (Schema t) !! name with
  | Some p => PropertyEnum p
  | None => []
  end.

(** The client methods that only read: their names begin with [Get],
    [List], [Search], [MyGet] or [MyList]. *)
Definition reads_only (method : string) : bool :=
  String.prefix "Get" method || String.prefix "List" method
  || String.prefix "Search" method || String.prefix "MyGet" method
  || String.prefix "MyList" method.

(** Every client method that [o] may go on to satisfies [ok]. *)
Definition proceeds_only (ok : string → bool) (o : Outcome) : Prop :=
  ∀ method checked, o = Proceeds method checked → ok method = true.


(** ** Checks of the rows of the registry *)

(** [s] begins with [head]; [t] occurs in [s]. *)
Definition starts_with (head s : string) : bool :=
  bool_decide (str_take (String.length head) s = head).

Fixpoint occurs (t s : string) : bool :=
  starts_with t s
  || match s with
     | EmptyString => false
     | String _ rest => occurs t rest
     end.

(** The kind that the heading of [FormatManualEntry] shows. *)
Definition entry_kind (e : ManualEntry) : string :=
  if bool_decide (EntryResource e ≠ EmptyString) then EntryResource e else EntryLinkType e.

(** The key of a row agrees with the fields of its entry: the action, and
    the kind as a link type for link and unlink, as a resource otherwise. *)
Definition keyed_row (row : Action * string * ManualEntry) : bool :=
  let '(action, kind, e) := row in
  bool_decide (EntryAction e = action)
  && match verb_of action with
     | Some (Link | Unlink) =>
         bool_decide (EntryResource e = EmptyString) && bool_decide (EntryLinkType e = kind)
     | Some _ =>
         bool_decide (EntryResource e = kind) && bool_decide (EntryLinkType e = EmptyString)
     | None => false
     end.

(** The example of a row is a call of the tool of its action, begins with
    the discriminator set to its kind, and gives every required
    parameter. *)
Definition example_row (row : Action * string * ManualEntry) : bool :=
  let '(action, kind, e) := row in
  match verb_of action with
  | Some v =>
      starts_with
        (ToolName (verb_tool v) +:+ "(" +:+ discriminator v +:+ "=" +:+ qt kind)
        (Example e)
      && forallb
           (λ p, implb (Required p) (occurs (", " +:+ Name p +:+ "=") (Example e)))
           (Params e)
  | None => false
  end.

(** The parameters of a row have distinct names, none of them that of a
    discriminator field, one of the four types each, and allowed values
    only on strings. *)
Definition param_types : list string := ["string"; "integer"; "boolean"; "array"].

Definition params_row (row : Action * string * ManualEntry) : bool :=
  let e := row.2 in
  bool_decide (NoDup (Name <$> Params e))
  && forallb
       (λ p, bool_decide (Type_ p ∈ param_types)
             && bool_decide (Name p ∉ ["resource"; "type"; EmptyString])
             && (bool_decide (Enum p = []) || bool_decide (Type_ p = "string")))
       (Params e).

(** The question put to the documentation tool for the kind of a verb: the
    kind goes in [type] for link and unlink, in [resource] otherwise, and
    [other] in the other field. *)
Definition manual_query (v : Verb) (kind other : string) : ManualParams :=
  match v with
  | Link | Unlink => manualParams (verb_action v) other kind
  | _ => manualParams (verb_action v) kind other
  end.

(** * Properties *)

(** ** Strings *)

Section strings.
Implicit Types s t a b c : string.

Lemma str_app_cons ch s t : String ch s +:+ t = String ch (s +:+ t).
Proof. reflexivity. Qed.

Lemma str_app_nil_r s : s +:+ EmptyString = s.
Proof. induction s as [|ch s IH]; [done|]. by rewrite str_app_cons, IH. Qed.

Lemma str_app_assoc a b c : (a +:+ b) +:+ c = a +:+ b +:+ c.
Proof.
    induction a as [|ch a IH]; [done|]. by rewrite !str_app_cons, IH.
Qed.

Lemma str_length_app a b :
    String.length (a +:+ b) = String.length a + String.length b.
Proof.
    induction a as [|ch a IH]; [done|]. rewrite str_app_cons. simpl. by rewrite IH.
Qed.

Lemma str_length_0 s : String.length s = 0 → s = EmptyString.
Proof. by destruct s. Qed.

Lemma str_take_app a b : str_take (String.length a) (a +:+ b) = a.
Proof.
    induction a as [|ch a IH]; [by destruct b|].
    rewrite str_app_cons. simpl. by rewrite IH.
Qed.

Lemma str_drop_app a b : str_drop (String.length a) (a +:+ b) = b.
Proof. induction a as [|ch a IH]; [done|]. by rewrite str_app_cons. Qed.

Lemma str_take_drop n s : str_take n s +:+ str_drop n s = s.
Proof.
    revert s. induction n as [|n IH]; intros [|ch s]; try done.
    simpl. by rewrite str_app_cons, IH.
Qed.

Lemma str_take_length n s : String.length (str_take n s) = n `min` String.length s.
Proof.
    revert s. induction n as [|n IH]; intros [|ch s]; try done.
    simpl. by rewrite IH.
Qed.

Lemma contains_refl s : contains s s.
Proof. exists EmptyString, EmptyString. by rewrite str_app_nil_r. Qed.

Lemma contains_app_l s t a : contains s t → contains (a +:+ s) t.
Proof.
    intros (x & y & ->). exists (a +:+ x), y. by rewrite str_app_assoc.
Qed.

Lemma contains_app_r s t b : contains s t → contains (s +:+ b) t.
Proof.
    intros (x & y & ->). exists x, (y +:+ b). by rewrite !str_app_assoc.
Qed.

Lemma contains_trans s t u : contains s t → contains t u → contains s u.
Proof.
    intros (x & y & ->) Hu. by apply contains_app_l, contains_app_r.
Qed.
End strings.

(** ** The registry as a map *)

Lemma source_order_NoDup : NoDup source_order.
Proof. apply (bool_decide_unpack _). by vm_compute. Qed.

Lemma Manual_lookup k e : Manual !! k = Some e ↔ (k, e) ∈ Manual_literal.
Proof. symmetry. apply elem_of_list_to_map, source_order_NoDup. Qed.

Lemma source_order_range : MapRange Manual source_order.
Proof.
  unfold MapRange, Manual, source_order.
  by rewrite (map_to_list_to_map _ source_order_NoDup).
Qed.

Section ranges.
Context {V : Type} (m : gmap string V).
Implicit Types keys : list string.

Lemma MapRange_NoDup keys : MapRange m keys → NoDup keys.
Proof. intros ->. apply NoDup_fst_map_to_list. Qed.

Lemma MapRange_elem keys k : MapRange m keys → k ∈ keys ↔ is_Some (m !! k).
Proof.
    intros ->. rewrite list_elem_of_fmap. split.
    - intros ([k' v] & -> & Hin). exists v. by apply elem_of_map_to_list.
    - intros [v Hv]. exists (k, v). split; [done|]. by apply elem_of_map_to_list.
Qed.

Lemma MapRange_perm keys1 keys2 : MapRange m keys1 → MapRange m keys2 → keys1 ≡ₚ keys2.
Proof. intros -> ->. done. Qed.

Lemma MapRange_rev keys : MapRange m keys → MapRange m (rev keys).
Proof. unfold MapRange. intros <-. apply Permutation_sym, Permutation_rev. Qed.
End ranges.

(** ** [ListResourcesForAction] *)

(** The loop, started from any slice, appends the resources of the visited
    keys in the order of the visit. *)
Lemma ListResourcesForAction_loop prefix keys (acc : list string) :
  fold_left
    (λ resources key,
       if bool_decide (String.length prefix < String.length key)
          && bool_decide (str_take (String.length prefix) key = prefix)
       then resources ++ [str_drop (String.length prefix) key]
       else resources)
    keys acc
  = acc ++ omap (resource_of prefix) keys.
Proof.
  revert acc. induction keys as [|key keys IH]; intros acc; simpl.
  - by rewrite app_nil_r.
  - rewrite IH.
    replace (resource_of prefix key) with
      (if bool_decide (String.length prefix < String.length key)
          && bool_decide (str_take (String.length prefix) key = prefix)
       then Some (str_drop (String.length prefix) key) else None) by done.
    destruct (_ && _); [|done]. by rewrite <- app_assoc.
Qed.

Lemma ListResourcesForAction_omap keys action :
  ListResourcesForAction keys action = omap (resource_of (action +:+ ":")) keys.
Proof. apply ListResourcesForAction_loop. Qed.

(** A key yields the resource [r] exactly when it is the prefix followed by
    [r], and [r] is not empty. *)
Lemma resource_of_Some prefix key r :
  resource_of prefix key = Some r ↔ key = prefix +:+ r ∧ r ≠ EmptyString.
Proof.
  unfold resource_of. split.
  - destruct (_ && _) eqn:Hc; [|done]. intros [= <-].
    apply andb_true_iff in Hc as [Hlen Htake].
    apply bool_decide_eq_true in Hlen, Htake.
    assert (key = prefix +:+ str_drop (String.length prefix) key) as Hkey.
    { rewrite <- Htake at 1. by rewrite str_take_drop. }
    split; [done|]. intros Hr. rewrite Hr, str_app_nil_r in Hkey.
    rewrite Hkey in Hlen. lia.
  - intros [-> Hr].
    rewrite str_length_app, str_take_app, str_drop_app.
    rewrite !bool_decide_eq_true_2; [done..|].
    destruct r; [done|]. simpl. lia.
Qed.

Lemma ListResourcesForAction_elem_keys keys action r :
  r ∈ ListResourcesForAction keys action
  ↔ (action +:+ ":") +:+ r ∈ keys ∧ r ≠ EmptyString.
Proof.
  rewrite ListResourcesForAction_omap, list_elem_of_omap. split.
  - intros (key & Hin & [-> Hr]%resource_of_Some). done.
  - intros [Hin Hr]. eexists. split; [done|]. by apply resource_of_Some.
Qed.

Lemma ListResourcesForAction_NoDup keys action :
  NoDup keys → NoDup (ListResourcesForAction keys action).
Proof.
  rewrite ListResourcesForAction_omap.
  induction 1 as [|key keys Hnotin Hnd IH]; simpl; [constructor|].
  destruct (resource_of _ key) as [r|] eqn:Hr; [|done].
  constructor; [|done].
  rewrite list_elem_of_omap. intros (key' & Hin & Hr').
  apply resource_of_Some in Hr as [-> _]. apply resource_of_Some in Hr' as [-> _].
  done.
Qed.

Lemma ListResourcesForAction_perm keys1 keys2 action :
  keys1 ≡ₚ keys2 →
  ListResourcesForAction keys1 action ≡ₚ ListResourcesForAction keys2 action.
Proof. intros H. rewrite !ListResourcesForAction_omap. by rewrite H. Qed.

(** No key of the registry ends with its colon: there is no entry for the
    empty kind. *)
Lemma ends_with_colon_app s : ends_with_colon (s +:+ ":") = true.
Proof.
  induction s as [|c s IH]; [done|]. rewrite str_app_cons.
  simpl. destruct (s +:+ ":") eqn:E; [by destruct s|done].
Qed.

Lemma LookupManual_empty action : LookupManual action EmptyString = None.
Proof.
  unfold LookupManual. destruct (Manual !! _) as [e|] eqn:H; [|done].
  apply Manual_lookup in H.
  assert (Forall (λ ke, ends_with_colon ke.1 = false) Manual_literal) as Hall.
  { apply (bool_decide_unpack _). by vm_compute. }
  rewrite Forall_forall in Hall. apply Hall in H. simpl in H.
  by rewrite ends_with_colon_app in H.
Qed.

(** The resources listed for an action are the kinds registered for it. *)
Lemma ListResourcesForAction_elem keys action r :
  MapRange Manual keys →
  r ∈ ListResourcesForAction keys action ↔ is_Some (LookupManual action r).
Proof.
  intros Hkeys.
  rewrite ListResourcesForAction_elem_keys, (MapRange_elem _ _ _ Hkeys).
  unfold LookupManual. rewrite str_app_assoc. split; [by intros [? _]|].
  intros H. split; [done|]. intros ->.
  pose proof (LookupManual_empty action) as Hnone. unfold LookupManual in Hnone.
  rewrite Hnone in H. destruct H as [e He]. discriminate He.
Qed.

(** For every order of visit the result is a rearrangement of the result
    for the order of the source text, which can be computed. *)
Lemma ListResourcesForAction_source keys action :
  MapRange Manual keys →
  ListResourcesForAction keys action ≡ₚ ListResourcesForAction source_order action.
Proof.
  intros H. apply ListResourcesForAction_perm.
  apply (MapRange_perm Manual); [done|apply source_order_range].
Qed.

(** ** The registry row by row *)

Lemma colons_app a b : colons (a +:+ b) = colons a + colons b.
Proof.
  induction a as [|c a IH]; [done|]. rewrite str_app_cons. simpl. rewrite IH. lia.
Qed.

Lemma split_key_app a r : colons a = 0 → split_key (a +:+ ":" +:+ r) = (a, r).
Proof.
  induction a as [|c a IH]; [done|]. rewrite str_app_cons. simpl.
  case_bool_decide; [done|]. intros Ha. by rewrite (IH Ha).
Qed.

(** A successful lookup is a row of the registry, and conversely. *)
Lemma LookupManual_row action kind e :
  LookupManual action kind = Some e ↔ (action, kind, e) ∈ registry_rows.
Proof.
  unfold LookupManual, registry_rows. rewrite Manual_lookup, list_elem_of_fmap. split.
  - intros Hin. eexists. split; [|exact Hin]. simpl.
    assert (Forall (λ ke, colons ke.1 = 1) Manual_literal) as Hall.
    { apply (bool_decide_unpack _). by vm_compute. }
    rewrite Forall_forall in Hall. apply Hall in Hin. simpl in Hin.
    rewrite !colons_app in Hin. simpl in Hin.
    rewrite split_key_app; [done|lia].
  - intros ([k e'] & [= Hk ->] & Hin).
    assert (Forall (λ ke, (split_key ke.1).1 +:+ ":" +:+ (split_key ke.1).2 = ke.1)
              Manual_literal) as Hall.
    { apply (bool_decide_unpack _). by vm_compute. }
    rewrite Forall_forall in Hall. apply Hall in Hin as Hk'. simpl in Hk', Hk.
    rewrite <- Hk in Hk'. simpl in Hk'. by rewrite Hk'.
Qed.

Lemma registry_rows_documented : Forall (λ row, documented_row row = true) registry_rows.
Proof. apply (bool_decide_unpack _). by vm_compute. Qed.

Lemma LookupManual_documented action kind e :
  LookupManual action kind = Some e → documented_row (action, kind, e) = true.
Proof.
  intros H%LookupManual_row.
  pose proof registry_rows_documented as Hall.
  rewrite Forall_forall in Hall. by apply Hall.
Qed.

(** ** Dispatch *)

(** A [switch] routes only to one of its cases, selected by its value. *)
Lemma switch_Routed x cases args err h out :
  switch x cases args (Refused err) = Routed h out →
  ∃ c, c ∈ cases ∧ case_value c = x ∧ h = case_name c ∧ out = case_handler c args.
Proof.
  induction cases as [|c cases IH]; simpl; [done|].
  case_bool_decide as Hx.
  - intros [= <- <-]. exists c. split; [left|done].
  - intros (c' & Hin & Hc')%IH. exists c'. split; [by right|done].
Qed.

(** With distinct case values, the case of a value is the one selected. *)
Lemma switch_case x cases args default c :
  NoDup (case_value <$> cases) → c ∈ cases → case_value c = x →
  switch x cases args default = Routed (case_name c) (case_handler c args).
Proof.
  induction cases as [|c' cases IH]; simpl; intros Hnd Hin Hx; [by apply elem_of_nil in Hin|].
  apply NoDup_cons in Hnd as [Hnotin Hnd].
  apply elem_of_cons in Hin as [->|Hin].
  - by rewrite bool_decide_eq_true_2.
  - case_bool_decide as Hc'; [|by apply IH].
    exfalso. apply Hnotin. rewrite <- Hc', <- Hx. by apply list_elem_of_fmap_2.
Qed.

Section dispatchers.
Variables (action : Action) (cases : list Case) (keys : list string) (args : Args).

Lemma resourceHandler_unregistered :
  LookupManual action (asString args "resource") = None →
  ∃ err, resourceHandler action cases keys args = Refused err.
Proof.
  intros Hnone. unfold resourceHandler.
  case_bool_decide; [by eexists|]. rewrite Hnone. by eexists.
Qed.

Lemma resourceHandler_Routed h out :
  resourceHandler action cases keys args = Routed h out →
  asString args "resource" ≠ EmptyString
  ∧ is_Some (LookupManual action (asString args "resource"))
  ∧ ∃ c, c ∈ cases ∧ case_value c = asString args "resource"
         ∧ h = case_name c ∧ out = case_handler c args.
Proof.
  unfold resourceHandler. case_bool_decide as Hd; [done|].
  destruct (LookupManual _ _) as [e|] eqn:He; [|done].
  intros Hs%switch_Routed. split; [done|]. split; [by eexists|done].
Qed.

Lemma typeHandler_unregistered :
  LookupManual action (asString args "type") = None →
  ∃ err, typeHandler action cases args = Refused err.
Proof.
  intros Hnone. unfold typeHandler.
  case_bool_decide; [by eexists|]. rewrite Hnone. by eexists.
Qed.

Lemma typeHandler_Routed h out :
  typeHandler action cases args = Routed h out →
  asString args "type" ≠ EmptyString
  ∧ is_Some (LookupManual action (asString args "type"))
  ∧ ∃ c, c ∈ cases ∧ case_value c = asString args "type"
         ∧ h = case_name c ∧ out = case_handler c args.
Proof.
  unfold typeHandler. case_bool_decide as Hd; [done|].
  destruct (LookupManual _ _) as [e|] eqn:He; [|done].
  intros Hs%switch_Routed. split; [done|]. split; [by eexists|done].
Qed.
End dispatchers.

(** C1. For each of the seven dispatchers and every argument bag: when the
    discriminator value (the string held by [resource], or by [type] for
    link and unlink; the empty string when the field is absent or holds no
    string) is not a registered key of the verb, the dispatcher returns an
    error of its own and no handler runs; and whenever a handler runs, the
    discriminator is not empty, [LookupManual] has succeeded on it, and the
    handler is the one of the case equal to it. *)
Theorem dispatch_validates_before_routing (v : Verb) (keys : list string) (args : Args) :
  (LookupManual (verb_action v) (asString args (discriminator v)) = None →
     ∃ err, Handler v keys args = Refused err)
  ∧ (∀ h out, Handler v keys args = Routed h out →
       asString args (discriminator v) ≠ EmptyString
       ∧ is_Some (LookupManual (verb_action v) (asString args (discriminator v)))
       ∧ ∃ c, c ∈ verb_cases v ∧ case_value c = asString args (discriminator v)
              ∧ h = case_name c ∧ out = case_handler c args).
Proof.
  destruct v.
  1-5: split; [ exact (resourceHandler_unregistered _ _ keys args)
              | exact (resourceHandler_Routed _ _ keys args) ].
  all: split; [ exact (typeHandler_unregistered _ _ args)
              | exact (typeHandler_Routed _ _ args) ].
Qed.

(** An unregistered kind refused by the create dispatcher, and a registered
    one routed to its handler. *)
Lemma dispatch_validates_before_routing_witness :
  (∃ err, Handler Create source_order {[ "resource" := VString "bogus" ]} = Refused err)
  ∧ asString ({[ "resource" := VString "issue" ]} : Args) (discriminator Create) ≠ EmptyString.
Proof.
  split.
  - apply (dispatch_validates_before_routing Create source_order
             {[ "resource" := VString "bogus" ]}). by vm_compute.
  - apply (proj2 (dispatch_validates_before_routing Create source_order
                    {[ "resource" := VString "issue" ]})
             "createIssue" (createIssue {[ "resource" := VString "issue" ]})).
    by vm_compute.
Defined.

(** ** Error enrichment *)

(** A loop that appends one row per element to the text built so far. *)
Lemma rows_loop {A} (row : A → string) (l : list A) (sb : string) :
  fold_left (λ sb x, sb +:+ row x) l sb = sb +:+ concat_rows (row <$> l).
Proof.
  revert sb. induction l as [|x l IH]; intros sb; simpl.
  - by rewrite str_app_nil_r.
  - by rewrite IH, str_app_assoc.
Qed.

(** The rendering of an entry shows its description, and further on its
    example. *)
Lemma FormatManualEntry_shape entry :
  ∃ a b c, FormatManualEntry entry
           = a +:+ Description entry +:+ b +:+ Example entry +:+ c.
Proof.
  unfold FormatManualEntry. rewrite rows_loop.
  set (heading := if bool_decide (EntryResource entry ≠ EmptyString) then _ else _).
  set (rows := concat_rows _).
  exists heading,
    (nl +:+ nl +:+ ("### Parameters" +:+ nl +:+ nl)
       +:+ ("| Name | Type | Required | Description |" +:+ nl)
       +:+ ("|------|------|----------|-------------|" +:+ nl)
       +:+ rows +:+ nl +:+ "### Example" +:+ nl +:+ nl +:+ "```" +:+ nl),
    (nl +:+ "```" +:+ nl).
  by rewrite !str_app_assoc.
Qed.

Lemma FormatValidationError_found action key reason entry :
  LookupManual action key = Some entry →
  FormatValidationError action key reason
  = "Error: " +:+ reason +:+ nl +:+ nl +:+ "Here's how to use this operation:"
      +:+ nl +:+ nl +:+ FormatManualEntry entry.
Proof.
  intros H. unfold FormatValidationError. rewrite H. cbv zeta.
  by rewrite !str_app_assoc.
Qed.

(** C2. [FormatValidationError] returns a message for every action, key and
    reason. When [LookupManual] finds the entry of the key, the message is
    ["Error: "], the literal reason, a line of introduction and then the
    rendered entry, which shows the description of the entry and, further
    on, its example; when there is no entry, the message is ["Error: "], the
    reason, and the note that no documentation was found for the
    combination. *)
Theorem FormatValidationError_enriches (action : Action) (key reason : string) :
  match LookupManual action key with
  | Some entry =>
      FormatValidationError action key reason
      = "Error: " +:+ reason +:+ nl +:+ nl +:+ "Here's how to use this operation:"
          +:+ nl +:+ nl +:+ FormatManualEntry entry
      ∧ (∃ a b c, FormatManualEntry entry
                  = a +:+ Description entry +:+ b +:+ Example entry +:+ c)
      ∧ contains (FormatValidationError action key reason) reason
      ∧ contains (FormatValidationError action key reason) (Description entry)
      ∧ contains (FormatValidationError action key reason) (Example entry)
  | None =>
      FormatValidationError action key reason
      = "Error: " +:+ reason +:+ nl +:+ nl +:+ "No documentation found for "
          +:+ action +:+ ":" +:+ key
  end.
Proof.
  destruct (LookupManual action key) as [entry|] eqn:Hlookup.
  - rewrite (FormatValidationError_found _ _ _ _ Hlookup).
    destruct (FormatManualEntry_shape entry) as (a & b & c & Hshape).
    split; [done|]. split; [by exists a, b, c|].
    split; [|split].
    + by exists "Error: ", (nl +:+ nl +:+ "Here's how to use this operation:"
                            +:+ nl +:+ nl +:+ FormatManualEntry entry).
    + exists ("Error: " +:+ reason +:+ nl +:+ nl +:+ "Here's how to use this operation:"
                +:+ nl +:+ nl +:+ a), (b +:+ Example entry +:+ c).
      by rewrite Hshape, !str_app_assoc.
    + exists ("Error: " +:+ reason +:+ nl +:+ nl +:+ "Here's how to use this operation:"
                +:+ nl +:+ nl +:+ a +:+ Description entry +:+ b), c.
      by rewrite Hshape, !str_app_assoc.
  - unfold FormatValidationError. by rewrite Hlookup.
Qed.

(** The texts that the handlers pass to [fmt.Errorf] as formats hold no
    percent sign: the reasons are literals without one, and so is every
    rendering of a registered entry. *)
Lemma percent_free_app a b :
  percent_free (a +:+ b) = percent_free a && percent_free b.
Proof.
  induction a as [|c a IH]; [done|]. rewrite str_app_cons. simpl.
  by rewrite IH, andb_assoc.
Qed.

Lemma renderings_percent_free action kind e reason :
  LookupManual action kind = Some e →
  percent_free reason = true →
  percent_free (Errorf0 (FormatValidationError action kind reason)) = true.
Proof.
  intros He Hreason. unfold Errorf0.
  rewrite (FormatValidationError_found _ _ _ _ He), !percent_free_app, Hreason.
  pose proof (LookupManual_documented _ _ _ He) as Hrow.
  unfold documented_row in Hrow.
  repeat (apply andb_true_iff in Hrow as [Hrow ?]).
  by replace (percent_free (FormatManualEntry e)) with true.
Qed.

(** ** Enumeration *)

(** C3. Whatever the order in which the registry is visited, the result of
    [ListResourcesForAction] for an action holds exactly the kinds on which
    [LookupManual] succeeds for that action: every registered kind is
    there, nothing else is (no kind of another verb, not the empty string),
    and no kind is there twice; for link these are the three link types, so
    no key of unlink shows through. *)
Theorem ListResourcesForAction_exact (keys : list string) (action : Action) :
  MapRange Manual keys →
  (∀ r, r ∈ ListResourcesForAction keys action ↔ is_Some (LookupManual action r))
  ∧ NoDup (ListResourcesForAction keys action)
  ∧ (EmptyString ∉ ListResourcesForAction keys action)
  ∧ (ListResourcesForAction keys ActionLink
      ≡ₚ ["issue_label"; "issue_dependency"; "issue_blocking"]).
Proof.
  intros Hkeys. repeat split.
  - by apply ListResourcesForAction_elem.
  - by apply ListResourcesForAction_elem.
  - by eapply ListResourcesForAction_NoDup, MapRange_NoDup.
  - intros [_ Hne]%ListResourcesForAction_elem_keys. done.
  - by rewrite (ListResourcesForAction_source _ _ Hkeys).
Qed.

(** The statement for the create action, visited in the order of the source
    text. *)
Lemma ListResourcesForAction_exact_witness :
  (∀ r, r ∈ ListResourcesForAction source_order ActionCreate
        ↔ is_Some (LookupManual ActionCreate r))
  ∧ NoDup (ListResourcesForAction source_order ActionCreate)
  ∧ (EmptyString ∉ ListResourcesForAction source_order ActionCreate)
  ∧ (ListResourcesForAction source_order ActionLink
      ≡ₚ ["issue_label"; "issue_dependency"; "issue_blocking"]).
Proof.
  exact (ListResourcesForAction_exact source_order ActionCreate source_order_range).
Defined.

(** [sort.Strings] of two arrangements of the same strings is the same
    slice. *)
Lemma sort_Strings_unique l1 l2 : l1 ≡ₚ l2 → sort_Strings l1 = sort_Strings l2.
Proof.
  intros Hperm. unfold sort_Strings.
  apply (Sorted_unique String.le); [apply Sorted_merge_sort, _..|].
  by rewrite !merge_sort_Permutation.
Qed.

(** C8, as the code has it. [LookupManual] is a function of its arguments:
    two calls return the same entry. Two calls of [ListResourcesForAction]
    for the same action return the same kinds, each once, whatever the
    orders in which the two calls visit the registry: the two slices are
    rearrangements of each other, equal once sorted, and equal as they are
    when the two visits follow the same order. *)
Theorem registry_reads_repeatable (keys1 keys2 : list string) (action : Action) (r : string) :
  MapRange Manual keys1 → MapRange Manual keys2 →
  (∀ e1 e2, LookupManual action r = Some e1 → LookupManual action r = Some e2 → e1 = e2)
  ∧ (ListResourcesForAction keys1 action ≡ₚ ListResourcesForAction keys2 action)
  ∧ (∀ k, k ∈ ListResourcesForAction keys1 action ↔ k ∈ ListResourcesForAction keys2 action)
  ∧ NoDup (ListResourcesForAction keys1 action)
  ∧ sort_Strings (ListResourcesForAction keys1 action)
    = sort_Strings (ListResourcesForAction keys2 action)
  ∧ (keys1 = keys2 →
     ListResourcesForAction keys1 action = ListResourcesForAction keys2 action).
Proof.
  intros H1 H2.
  assert (ListResourcesForAction keys1 action ≡ₚ ListResourcesForAction keys2 action)
    as Hperm by (by apply ListResourcesForAction_perm, (MapRange_perm Manual)).
  split; [congruence|]. split; [done|]. split; [|split; [|split]].
  - intros k. by rewrite Hperm.
  - by eapply ListResourcesForAction_NoDup, MapRange_NoDup.
  - by apply sort_Strings_unique.
  - by intros ->.
Qed.

(** Two visits of the registry, one in the order of the source text and one
    in the opposite order, asked for the kinds of create. *)
Lemma registry_reads_repeatable_witness :
  (ListResourcesForAction source_order ActionCreate
     ≡ₚ ListResourcesForAction (rev source_order) ActionCreate)
  ∧ sort_Strings (ListResourcesForAction source_order ActionCreate)
    = sort_Strings (ListResourcesForAction (rev source_order) ActionCreate).
Proof.
  pose proof (registry_reads_repeatable source_order (rev source_order)
                ActionCreate "issue" source_order_range
                (MapRange_rev Manual _ source_order_range)) as (_ & Hp & _ & _ & Hs & _).
  exact (conj Hp Hs).
Defined.

(** C8, as stated, fails: the order of the source text and its reverse are
    both orders in which [range] may visit the registry, and the two calls
    return different slices for create. *)
Lemma ListResourcesForAction_order_dependent :
  MapRange Manual source_order
  ∧ MapRange Manual (rev source_order)
  ∧ ListResourcesForAction source_order ActionCreate
    = ["issue"; "issue_comment"; "label"; "milestone"; "release"; "wiki_page"; "pull_request"]
  ∧ ListResourcesForAction (rev source_order) ActionCreate
    = ["pull_request"; "wiki_page"; "release"; "milestone"; "label"; "issue_comment"; "issue"]
  ∧ ListResourcesForAction source_order ActionCreate
    ≠ ListResourcesForAction (rev source_order) ActionCreate.
Proof.
  split; [apply source_order_range|].
  split; [apply MapRange_rev, source_order_range|].
  split; [by vm_compute|]. split; [by vm_compute|]. by vm_compute.
Qed.

(** C9. [ListLinkTypes] is the fixed list of the three link types, in that
    order, and takes nothing from the registry; under link and under unlink
    alike, [LookupManual] succeeds on a type exactly when the type is one of
    the three. *)
Theorem ListLinkTypes_matches_registry :
  ListLinkTypes = ["issue_label"; "issue_dependency"; "issue_blocking"]
  ∧ (∀ t, t ∈ ListLinkTypes ↔ is_Some (LookupManual ActionLink t))
  ∧ (∀ t, t ∈ ListLinkTypes ↔ is_Some (LookupManual ActionUnlink t)).
Proof.
  split; [done|].
  split; intros t;
    rewrite <- (ListResourcesForAction_elem source_order _ t source_order_range);
    by vm_compute.
Qed.

(** ** The errors of the dispatchers *)

(** [%v] of a slice shows each of its elements. *)
Lemma join_with_contains sep l x : x ∈ l → contains (join_with sep l) x.
Proof.
  induction l as [|y l IH]; [by intros ?%elem_of_nil|].
  intros [->|Hin]%elem_of_cons.
  - destruct l as [|z l]; simpl; [apply contains_refl|].
    by exists EmptyString, (sep +:+ join_with sep (z :: l)).
  - destruct l as [|z l]; [by apply elem_of_nil in Hin|].
    change (join_with sep (y :: z :: l)) with (y +:+ sep +:+ join_with sep (z :: l)).
    by apply contains_app_l, contains_app_l, IH.
Qed.

Lemma fmt_v_contains l x : x ∈ l → contains (fmt_v l) x.
Proof.
  intros H. unfold fmt_v. by apply contains_app_l, contains_app_r, join_with_contains.
Qed.

Lemma asString_missing (args : Args) k :
  args !! k = None ∨ args !! k = Some (VString EmptyString) →
  asString args k = EmptyString.
Proof. unfold asString. by intros [-> | ->]. Qed.

Lemma valid_set_elem v keys k :
  MapRange Manual keys →
  k ∈ valid_set v keys ↔ is_Some (LookupManual (verb_action v) k).
Proof.
  intros Hkeys.
  destruct v; simpl; try (by apply ListResourcesForAction_elem);
    rewrite <- (ListResourcesForAction_elem source_order _ k source_order_range);
    by vm_compute.
Qed.

(** C5. For each of the seven dispatchers, a call whose discriminator field
    is absent or holds the empty string is refused before any routing, with
    the message that the field is required followed by the valid set: the
    result of [ListResourcesForAction] for the verb, or [ListLinkTypes] for
    link and unlink. That set holds exactly the registered kinds of the
    verb, and the message shows each of them; for create they are the seven
    kinds issue, issue_comment, label, milestone, release, wiki_page and
    pull_request. *)
Theorem missing_discriminator_refused (v : Verb) (keys : list string) (args : Args) :
  MapRange Manual keys →
  args !! discriminator v = None ∨ args !! discriminator v = Some (VString EmptyString) →
  Handler v keys args = Refused (missing_message v (valid_set v keys))
  ∧ (∀ k, k ∈ valid_set v keys ↔ is_Some (LookupManual (verb_action v) k))
  ∧ (∀ k, k ∈ valid_set v keys → contains (missing_message v (valid_set v keys)) k)
  ∧ (valid_set Create keys ≡ₚ create_kinds).
Proof.
  intros Hkeys Hmissing%asString_missing. split; [|split; [|split]].
  - destruct v; simpl in *;
      unfold CreateImpl_Handler, GetImpl_Handler, ListImpl_Handler, EditImpl_Handler,
        DeleteImpl_Handler, LinkImpl_Handler, UnlinkImpl_Handler,
        resourceHandler, typeHandler;
      by rewrite Hmissing.
  - intros k. by apply valid_set_elem.
  - intros k Hk%fmt_v_contains. destruct v; by apply contains_app_l.
  - simpl. by rewrite (ListResourcesForAction_source _ _ Hkeys).
Qed.

(** The create dispatcher called with the empty resource. *)
Lemma missing_discriminator_refused_witness :
  Handler Create source_order {[ "resource" := VString EmptyString ]}
  = Refused "resource is required. Valid resources: [issue issue_comment label milestone release wiki_page pull_request]".
Proof.
  refine (proj1 (missing_discriminator_refused Create source_order
                   {[ "resource" := VString EmptyString ]} source_order_range _)).
  right. reflexivity.
Defined.

(** C6. The list dispatcher refuses a call whose resource is a non-empty
    string that is not registered for list, [bogus] for one, with the
    message that the resource is unknown followed by the valid set. The set
    has the thirteen kinds of list, each once, and the message shows each of
    them. *)
Theorem unknown_list_resource_refused (keys : list string) (args : Args) (r : string) :
  MapRange Manual keys →
  args !! "resource" = Some (VString r) →
  r ≠ EmptyString →
  LookupManual ActionList r = None →
  Handler List_ keys args
  = Refused (unknown_message r (ListResourcesForAction keys ActionList))
  ∧ (ListResourcesForAction keys ActionList ≡ₚ list_kinds)
  ∧ NoDup (ListResourcesForAction keys ActionList)
  ∧ length (ListResourcesForAction keys ActionList) = 13
  ∧ (∀ k, k ∈ list_kinds →
       contains (unknown_message r (ListResourcesForAction keys ActionList)) k)
  ∧ LookupManual ActionList "bogus" = None.
Proof.
  intros Hkeys Hr Hne Hnone.
  assert (ListResourcesForAction keys ActionList ≡ₚ list_kinds) as Hperm.
  { by rewrite (ListResourcesForAction_source _ _ Hkeys). }
  split; [|split; [done|split; [|split; [|split]]]].
  - simpl. unfold ListImpl_Handler, resourceHandler, asString. rewrite Hr.
    rewrite bool_decide_eq_false_2 by done. by rewrite Hnone.
  - by eapply ListResourcesForAction_NoDup, MapRange_NoDup.
  - by rewrite Hperm.
  - intros k Hk. rewrite <- Hperm in Hk. apply fmt_v_contains in Hk.
    unfold unknown_message. by do 3 apply contains_app_l.
  - by vm_compute.
Qed.

(** The list dispatcher called with the resource [bogus]. *)
Lemma unknown_list_resource_refused_witness :
  Handler List_ source_order {[ "resource" := VString "bogus" ]}
  = Refused "unknown resource 'bogus'. Valid resources: [issue issue_comment issue_attachment label milestone release release_attachment wiki_page pull_request repository action_task issue_dependency issue_blocking]".
Proof.
  refine (proj1 (unknown_list_resource_refused source_order
                   {[ "resource" := VString "bogus" ]} "bogus" source_order_range _ _ _)).
  - reflexivity.
  - discriminate.
  - by vm_compute.
Defined.

(** ** The manual and the handlers *)

Lemma verb_of_Some action v : verb_of action = Some v → verb_action v = action.
Proof.
  unfold verb_of. intros H%head_Some_elem_of. by apply list_elem_of_filter in H as [? _].
Qed.

Lemma case_of_Some v kind c :
  case_of v kind = Some c → c ∈ verb_cases v ∧ case_value c = kind.
Proof.
  unfold case_of. intros H%head_Some_elem_of. by apply list_elem_of_filter in H as [? ?].
Qed.

Lemma verb_cases_NoDup v : NoDup (case_value <$> verb_cases v).
Proof. destruct v; apply (bool_decide_unpack _); by vm_compute. Qed.

(** A dispatcher routes a registered kind to the handler of its case. *)
Lemma Handler_routes v keys args c e :
  LookupManual (verb_action v) (case_value c) = Some e →
  c ∈ verb_cases v →
  asString args (discriminator v) = case_value c →
  Handler v keys args = Routed (case_name c) (case_handler c args).
Proof.
  intros He Hc Hd.
  assert (case_value c ≠ EmptyString) as Hne.
  { intros Hempty. by rewrite Hempty, LookupManual_empty in He. }
  pose proof (verb_cases_NoDup v) as Hnd.
  destruct v; simpl in *;
    unfold CreateImpl_Handler, GetImpl_Handler, ListImpl_Handler, EditImpl_Handler,
      DeleteImpl_Handler, LinkImpl_Handler, UnlinkImpl_Handler,
      resourceHandler, typeHandler;
    rewrite Hd, (bool_decide_eq_false_2 _ Hne), He;
    by apply switch_case.
Qed.

(** A handler that accepts the call made of the parameters documented as
    required can treat as required only parameters among them. *)
Lemma required_documented (h : Args → Outcome) e p :
  accepts (h (required_only e)) = true →
  treats_as_required h p →
  ∃ ps, ps ∈ Params e ∧ Name ps = p ∧ Required ps = true.
Proof.
  intros Hacc Hreq.
  destruct (required_only e !! p) as [val|] eqn:Hp.
  - apply elem_of_list_to_map_2, list_elem_of_fmap in Hp as (ps & [= -> _] & Hin).
    apply list_elem_of_filter in Hin as [Hreq' Hin]. by exists ps.
  - destruct (Hreq _ Hp) as [err Herr]. by rewrite Herr in Hacc.
Qed.

Lemma createIssue_title_required : treats_as_required createIssue "title".
Proof.
  intros args Hp.
  assert (asString args "title" = EmptyString) as Ht by (apply asString_missing; by left).
  unfold createIssue, ownerRepo, nonEmptyString.
  destruct (extractOwnerRepo args) as [[owner repo]|msg]; [|by eexists].
  rewrite Ht. by eexists.
Qed.

Lemma createIssue_body_required : treats_as_required createIssue "body".
Proof.
  intros args Hp.
  assert (asString args "body" = EmptyString) as Hb by (apply asString_missing; by left).
  unfold createIssue, ownerRepo, nonEmptyString.
  destruct (extractOwnerRepo args) as [[owner repo]|msg]; [|by eexists].
  case_bool_decide; [by eexists|].
  rewrite Hb. by eexists.
Qed.

(** C4. For every registered pair, [LookupManual] returns an entry whose
    description and example are not empty; the action is one of the seven
    verbs, whose dispatcher routes the kind to one handler; and every
    parameter that this handler treats as required (it rejects each call
    in which the parameter is absent) is in the parameter list of the
    entry, and is marked required there. In particular the entry of
    create and issue lists [title] and [body] as required strings, and
    [createIssue] rejects every call without a title and every call without
    a body. *)
Theorem manual_entry_documents_required :
  (∀ action kind e,
     LookupManual action kind = Some e →
     Description e ≠ EmptyString
     ∧ Example e ≠ EmptyString
     ∧ ∃ v c,
         verb_action v = action ∧ c ∈ verb_cases v ∧ case_value c = kind
         ∧ (∀ keys args, asString args (discriminator v) = kind →
              Handler v keys args = Routed (case_name c) (case_handler c args))
         ∧ (∀ p, treats_as_required (case_handler c) p →
              ∃ ps, ps ∈ Params e ∧ Name ps = p ∧ Required ps = true))
  ∧ (∃ e, LookupManual ActionCreate "issue" = Some e
          ∧ param "title" "string" true "Issue title" [] ∈ Params e
          ∧ param "body" "string" true "Issue body (markdown)" [] ∈ Params e
          ∧ case_of Create "issue" = Some (case_ "issue" "createIssue" createIssue)
          ∧ treats_as_required createIssue "title"
          ∧ treats_as_required createIssue "body").
Proof.
  split.
  - intros action kind e He.
    pose proof (LookupManual_documented _ _ _ He) as Hrow.
    unfold documented_row in Hrow.
    destruct (verb_of action) as [v|] eqn:Hv;
      [|by rewrite andb_false_r in Hrow].
    destruct (case_of v kind) as [c|] eqn:Hc;
      [|by rewrite andb_false_r in Hrow].
    apply verb_of_Some in Hv. apply case_of_Some in Hc as [Hin Hkind].
    repeat (apply andb_true_iff in Hrow as [Hrow ?]).
    apply bool_decide_eq_true in Hrow.
    split; [done|]. split; [by eapply bool_decide_eq_true|].
    exists v, c. subst action kind.
    split; [reflexivity|]. split; [exact Hin|]. split; [reflexivity|]. split.
    + intros keys args Hd. by eapply Handler_routes.
    + intros p Hp. by eapply required_documented.
  - eexists. split; [by vm_compute|].
    split; [|split; [|split; [done|split]]].
    + apply list_elem_of_In. by vm_compute; tauto.
    + apply list_elem_of_In. by vm_compute; tauto.
    + apply createIssue_title_required.
    + apply createIssue_body_required.
Qed.

(** The entry of create and issue: its handler is [createIssue], which
    treats [title] as required, and the entry lists [title] as required. *)
Lemma manual_entry_documents_required_witness :
  ∃ e, LookupManual ActionCreate "issue" = Some e
       ∧ Description e ≠ EmptyString
       ∧ Example e ≠ EmptyString.
Proof.
  eexists. split; [by vm_compute|].
  refine (let H := proj1 manual_entry_documents_required ActionCreate "issue" _ _ in
          conj (proj1 H) (proj1 (proj2 H))).
  by vm_compute.
Defined.

(** ** The overview tables *)

Lemma truncated_spec desc :
  (String.length (truncated desc) ≤ 60)%nat
  ∧ ((String.length desc ≤ 60)%nat → truncated desc = desc)
  ∧ ((60 < String.length desc)%nat →
       truncated desc = str_take 57 desc +:+ "..."
       ∧ String.length (truncated desc) = 60).
Proof.
  unfold truncated. case_bool_decide as Hlen.
  - assert (String.length (str_take 57 desc +:+ "...") = 60) as Hcut.
    { rewrite str_length_app, str_take_length.
      change (String.length "...") with 3. lia. }
    split; [lia|]. split; [lia|done].
  - split; [lia|]. split; [done|lia].
Qed.

(** The table of resources does not depend on the order in which the
    registry was visited: the resources are sorted first. *)
Lemma formatResourcesForAction_source keys action :
  MapRange Manual keys →
  formatResourcesForAction keys action = formatResourcesForAction source_order action.
Proof.
  intros Hkeys. unfold formatResourcesForAction.
  by rewrite (sort_Strings_unique _ _ (ListResourcesForAction_source _ _ Hkeys)).
Qed.

Lemma formatResourcesForAction_rows keys action :
  ∃ head foot,
    formatResourcesForAction keys action
    = head +:+ concat_rows
                 (overview_row action <$> sort_Strings (ListResourcesForAction keys action))
        +:+ foot.
Proof.
  unfold formatResourcesForAction. rewrite rows_loop.
  eexists _, _. apply str_app_assoc.
Qed.

Lemma formatLinkTypes_rows action :
  ∃ head foot,
    formatLinkTypes action
    = head +:+ concat_rows (overview_row action <$> ListLinkTypes) +:+ foot.
Proof.
  unfold formatLinkTypes. rewrite rows_loop.
  eexists _, _. apply str_app_assoc.
Qed.

Lemma ListLinkTypes_elem action t :
  action = ActionLink ∨ action = ActionUnlink →
  t ∈ ListLinkTypes ↔ is_Some (LookupManual action t).
Proof.
  intros [-> | ->];
    rewrite <- (ListResourcesForAction_elem source_order _ t source_order_range);
    by vm_compute.
Qed.

(** C7. The description cell of the overview tables is capped at 60
    bytes: a description of at most 60 bytes is shown unchanged, a longer
    one is cut to its first 57 bytes followed by three dots, 60 bytes in
    all. The descriptions of the registry are ASCII, so bytes are display
    characters. The overview of a verb, asked without resource or type, is
    a table with one row per registered kind of the verb, each kind once,
    the row showing the kind and the capped description of its entry. The
    overview of delete lists its seven kinds, in increasing order,
    whatever the order in which the registry was visited; the long
    description of the repository row of list is cut as said. *)
Theorem overview_descriptions_capped :
  (∀ desc,
     (String.length (truncated desc) ≤ 60)%nat
     ∧ ((String.length desc ≤ 60)%nat → truncated desc = desc)
     ∧ ((60 < String.length desc)%nat →
          truncated desc = str_take 57 desc +:+ "..."
          ∧ String.length (truncated desc) = 60))
  ∧ (∀ action kind e,
       LookupManual action kind = Some e →
       overview_row action kind
       = "| `" +:+ kind +:+ "` | " +:+ truncated (Description e) +:+ " |" +:+ nl
       ∧ is_ascii (Description e) = true)
  ∧ (∀ keys args,
       MapRange Manual keys →
       ParamsAction args ≠ EmptyString →
       ParamsResource args = EmptyString →
       ParamsType args = EmptyString →
       ∃ kinds head foot,
         ManualImpl_Handler keys args
         = TextContent (head +:+ concat_rows (overview_row (ParamsAction args) <$> kinds)
                          +:+ foot)
         ∧ NoDup kinds
         ∧ (∀ k, k ∈ kinds ↔ is_Some (LookupManual (ParamsAction args) k)))
  ∧ (∀ keys,
       MapRange Manual keys →
       ManualImpl_Handler keys (manualParams "delete" EmptyString EmptyString)
       = TextContent
           ("# delete_gitea Resources" +:+ nl +:+ nl
            +:+ "| Resource | Description |" +:+ nl
            +:+ "|----------|-------------|" +:+ nl
            +:+ "| `issue_attachment` | Delete an issue attachment. |" +:+ nl
            +:+ "| `issue_comment` | Delete an issue comment. |" +:+ nl
            +:+ "| `label` | Delete a label from a repository. |" +:+ nl
            +:+ "| `milestone` | Delete a milestone. |" +:+ nl
            +:+ "| `release` | Delete a release. |" +:+ nl
            +:+ "| `release_attachment` | Delete a release attachment. |" +:+ nl
            +:+ "| `wiki_page` | Delete a wiki page. |" +:+ nl
            +:+ nl +:+ "Call `gitea_manual(action=" +:+ qt "delete" +:+ ", resource="
            +:+ qt "<resource>" +:+ ")` for full documentation." +:+ nl)
       ∧ sort_Strings (ListResourcesForAction keys ActionDelete) = delete_kinds)
  ∧ overview_row ActionList "repository"
    = "| `repository` | List repositories. Use 'scope' to choose: 'my' (authentic... |" +:+ nl.
Proof.
  split; [apply truncated_spec|]. split; [|split; [|split]].
  - intros action kind e He. unfold overview_row. rewrite He. split; [done|].
    pose proof (LookupManual_documented _ _ _ He) as Hrow.
    unfold documented_row in Hrow.
    repeat (apply andb_true_iff in Hrow as [Hrow ?]). done.
  - intros keys [action resource type] Hkeys Haction Hresource Htype.
    simpl in *. subst resource type. unfold ManualImpl_Handler. simpl.
    rewrite (bool_decide_eq_false_2 _ Haction).
    destruct (bool_decide (action = "link") || bool_decide (action = "unlink")) eqn:Hlink.
    + destruct (formatLinkTypes_rows action) as (head & foot & ->).
      exists ListLinkTypes, head, foot. split; [done|]. split.
      * apply (bool_decide_unpack _). by vm_compute.
      * intros k. apply ListLinkTypes_elem.
        apply orb_true_iff in Hlink as [H|H]; apply bool_decide_eq_true in H; auto.
    + destruct (formatResourcesForAction_rows keys action) as (head & foot & ->).
      exists (sort_Strings (ListResourcesForAction keys action)), head, foot.
      split; [done|]. unfold sort_Strings. split.
      * rewrite merge_sort_Permutation.
        by eapply ListResourcesForAction_NoDup, MapRange_NoDup.
      * intros k. rewrite merge_sort_Permutation.
        by apply ListResourcesForAction_elem.
  - intros keys Hkeys. split.
    + unfold ManualImpl_Handler. simpl.
      rewrite (formatResourcesForAction_source _ _ Hkeys). by vm_compute.
    + rewrite (sort_Strings_unique _ _ (ListResourcesForAction_source _ _ Hkeys)).
      by vm_compute.
  - by vm_compute.
Qed.

(** The overview of delete, the registry visited in the opposite of the
    order of the source text. *)
Lemma overview_descriptions_capped_witness :
  sort_Strings (ListResourcesForAction (rev source_order) ActionDelete) = delete_kinds.
Proof.
  exact (proj2 (proj1 (proj2 (proj2 (proj2 overview_descriptions_capped)))
                  (rev source_order) (MapRange_rev Manual _ source_order_range))).
Defined.

(** ** Array parameters *)

Lemma toInt64Slice_loop arr (acc : list Z) :
  fold_left
    (λ result v, match v with VNumber f => result ++ [int64 f] | _ => result end)
    arr acc
  = acc ++ omap as_int64 arr.
Proof.
  revert acc. induction arr as [|v arr IH]; intros acc; simpl.
  - by rewrite app_nil_r.
  - rewrite IH. destruct v; simpl; try done. by rewrite <- app_assoc.
Qed.

Lemma toStringSlice_loop arr (acc : list string) :
  fold_left
    (λ result v, match v with VString s => result ++ [s] | _ => result end)
    arr acc
  = acc ++ omap as_string arr.
Proof.
  revert acc. induction arr as [|v arr IH]; intros acc; simpl.
  - by rewrite app_nil_r.
  - rewrite IH. destruct v; simpl; try done. by rewrite <- app_assoc.
Qed.

Lemma toInt64Slice_omap arr : toInt64Slice arr = omap as_int64 arr.
Proof. apply toInt64Slice_loop. Qed.

Lemma toStringSlice_omap arr : toStringSlice arr = omap as_string arr.
Proof. apply toStringSlice_loop. Qed.

(** [addIssueLabels] on a call that passes its checks: the labels reach the
    client through [toInt64Slice], whatever their elements. *)
Lemma addIssueLabels_proceeds (args : Args) owner repo index labels :
  extractOwnerRepo args = Ok (owner, repo) →
  asFloat64 args "index" = Some index →
  float64_le0 index = false →
  asArray args "labels" = Some labels →
  labels ≠ [] →
  addIssueLabels args
  = Proceeds "AddIssueLabels"
      [AString owner; AString repo; AInt64 (int64 index); AInt64s (toInt64Slice labels)].
Proof.
  intros Hor Hindex Hpos Hlabels Hne.
  unfold addIssueLabels, ownerRepo, positiveNumber.
  rewrite Hor, Hindex, Hpos, Hlabels.
  rewrite bool_decide_eq_false_2; [done|]. by destruct labels.
Qed.

(** C10. [toInt64Slice] keeps the [float64] elements of an array, each
    converted by [int64] (the fraction discarded), in their order, and
    drops every other element; [toStringSlice] keeps the strings likewise;
    both distribute over concatenation. No handler rejects an array for the
    type of its elements: [addIssueLabels], once owner, repo, index and a
    non-empty [labels] array are there, goes on to the client with the
    converted labels. So link of [issue_label] with labels [1, "x", 2]
    proceeds as with [1, 2], and with labels holding no number it proceeds
    with the empty list. *)
Theorem array_parameters_coerced :
  (∀ arr, toInt64Slice arr = omap as_int64 arr)
  ∧ (∀ arr, toStringSlice arr = omap as_string arr)
  ∧ (∀ arr1 arr2, toInt64Slice (arr1 ++ arr2) = toInt64Slice arr1 ++ toInt64Slice arr2)
  ∧ (∀ arr1 arr2, toStringSlice (arr1 ++ arr2) = toStringSlice arr1 ++ toStringSlice arr2)
  ∧ (∀ arr, Forall (λ v, as_int64 v = None) arr → toInt64Slice arr = [])
  ∧ (∀ (args : Args) owner repo index labels,
       extractOwnerRepo args = Ok (owner, repo) →
       asFloat64 args "index" = Some index →
       float64_le0 index = false →
       asArray args "labels" = Some labels →
       labels ≠ [] →
       addIssueLabels args
       = Proceeds "AddIssueLabels"
           [AString owner; AString repo; AInt64 (int64 index);
            AInt64s (omap as_int64 labels)])
  ∧ (∀ keys,
       Handler Link keys
         (label_call [VNumber (float64_of_Z 1); VString "x"; VNumber (float64_of_Z 2)])
       = Routed "addIssueLabels"
           (Proceeds "AddIssueLabels"
              [AString "o"; AString "r"; AInt64 5; AInt64s [1; 2]%Z])
       ∧ Handler Link keys (label_call [VNumber (float64_of_Z 1); VNumber (float64_of_Z 2)])
         = Handler Link keys
             (label_call [VNumber (float64_of_Z 1); VString "x"; VNumber (float64_of_Z 2)])
       ∧ Handler Link keys (label_call [VString "x"; VBool true; VNil])
         = Routed "addIssueLabels"
             (Proceeds "AddIssueLabels" [AString "o"; AString "r"; AInt64 5; AInt64s []]))
  ∧ int64 (S754_finite false 3 (-1)) = 1%Z
  ∧ int64 (S754_finite true 3 (-1)) = (-1)%Z.
Proof.
  split; [apply toInt64Slice_omap|]. split; [apply toStringSlice_omap|].
  split; [|split; [|split; [|split; [|split]]]].
  - intros arr1 arr2. by rewrite !toInt64Slice_omap, omap_app.
  - intros arr1 arr2. by rewrite !toStringSlice_omap, omap_app.
  - intros arr Hall. rewrite toInt64Slice_omap.
    induction Hall as [|v arr Hv _ IH]; [done|]. simpl. by rewrite Hv.
  - intros args owner repo index labels Hor Hi Hpos Hl Hne.
    rewrite <- toInt64Slice_omap. by apply addIssueLabels_proceeds.
  - intros keys. by vm_compute.
  - by vm_compute.
Qed.

(** The call of the claim, with labels [1, "x", 2]. *)
Lemma array_parameters_coerced_witness :
  addIssueLabels (label_call [VNumber (float64_of_Z 1); VString "x"; VNumber (float64_of_Z 2)])
  = Proceeds "AddIssueLabels" [AString "o"; AString "r"; AInt64 5; AInt64s [1; 2]%Z].
Proof.
  refine (proj1 (proj2 (proj2 (proj2 (proj2 (proj2 array_parameters_coerced)))))
            (label_call [VNumber (float64_of_Z 1); VString "x"; VNumber (float64_of_Z 2)])
            "o" "r" (float64_of_Z 5)
            [VNumber (float64_of_Z 1); VString "x"; VNumber (float64_of_Z 2)] _ _ _ _ _);
    [reflexivity..|discriminate].
Defined.

(** * Further properties *)

(** ** The dispatchers and the registry *)

Lemma case_of_elem v kind :
  (∃ c, c ∈ verb_cases v ∧ case_value c = kind) ↔ kind ∈ case_value <$> verb_cases v.
Proof.
  rewrite list_elem_of_fmap. split.
  - intros (c & Hc & <-). by exists c.
  - intros (c & -> & Hc). by exists c.
Qed.

Lemma verb_cases_registered v kind :
  kind ∈ case_value <$> verb_cases v ↔ is_Some (LookupManual (verb_action v) kind).
Proof.
  rewrite <- (ListResourcesForAction_elem source_order _ kind source_order_range).
  destruct v; by vm_compute.
Qed.

(** X1. For each verb, the values of the cases of its dispatcher's [switch]
    are exactly the kinds registered for the verb: no registered kind lacks
    a handler, and no case is out of reach of the lookup that guards the
    switch. *)
Theorem switch_cases_are_registered_kinds (v : Verb) (kind : string) :
  (∃ c, c ∈ verb_cases v ∧ case_value c = kind)
  ↔ is_Some (LookupManual (verb_action v) kind).
Proof.
  split.
  - intros Hc%case_of_elem. by apply verb_cases_registered.
  - intros Hk%verb_cases_registered. by apply case_of_elem.
Qed.

Lemma switch_default x cases args default :
  x ∉ case_value <$> cases → switch x cases args default = default.
Proof.
  induction cases as [|c cases IH]; simpl; [done|].
  intros Hnotin. apply not_elem_of_cons in Hnotin as [Hne Hnotin].
  rewrite bool_decide_eq_false_2 by done. by apply IH.
Qed.

Lemma Handler_unfold v keys args :
  Handler v keys args
  = let d := asString args (discriminator v) in
    if bool_decide (d = EmptyString) then
      Refused (missing_message v (valid_set v keys))
    else
      match LookupManual (verb_action v) d with
      | None => Refused (unregistered_message v d (valid_set v keys))
      | Some _ =>
          switch d (verb_cases v) args
            (Refused (Errorf0 (FormatValidationError (verb_action v) d "not implemented")))
      end.
Proof. by destruct v. Qed.

(** X2. What a dispatcher does with a call is decided by the discriminator
    alone. Empty (absent, not a string, or the empty string): the
    missing-discriminator error. Not empty and not registered: the
    unknown-resource (unknown-type) error, which quotes the value and the
    valid set. Registered: control passes to the handler of the one case
    with that value. The [default] branch of the switch, the
    not-implemented error, is never taken. *)
Theorem Handler_outcomes (v : Verb) (keys : list string) (args : Args) :
  let d := asString args (discriminator v) in
  (d = EmptyString ∧
     Handler v keys args = Refused (missing_message v (valid_set v keys)))
  ∨ (d ≠ EmptyString ∧ LookupManual (verb_action v) d = None ∧
     Handler v keys args = Refused (unregistered_message v d (valid_set v keys)))
  ∨ (d ≠ EmptyString ∧ is_Some (LookupManual (verb_action v) d) ∧
     ∃ c, c ∈ verb_cases v ∧ case_value c = d ∧
          Handler v keys args = Routed (case_name c) (case_handler c args)).
Proof.
  intros d. rewrite Handler_unfold. cbv zeta. fold d.
  case_bool_decide as Hd; [left; split; [exact Hd|reflexivity]|]. right.
  destruct (LookupManual (verb_action v) d) as [e|] eqn:He;
    [right|left; split; [exact Hd|split; reflexivity]].
  split; [exact Hd|]. split; [by exists e|].
  assert (is_Some (LookupManual (verb_action v) d)) as Hsome by (by eexists).
  apply verb_cases_registered, case_of_elem in Hsome as (c & Hc & Hcd).
  exists c. split; [done|]. split; [done|].
  apply switch_case; [apply verb_cases_NoDup|done..].
Qed.

(** ** The errors of the handlers *)

Section enrichment.
Variables (action : Action) (kind : string) (args : Args).

Lemma enriched_Proceeds method checked : enriched action kind (Proceeds method checked).
Proof. intros err H. discriminate H. Qed.

Lemma enriched_Rejected reason :
  enriched action kind (Rejected (Errorf0 (FormatValidationError action kind reason))).
Proof. intros err H. exists reason. unfold Errorf0 in H. congruence. Qed.

Lemma enriched_ownerRepo rest :
  (∀ owner repo, enriched action kind (rest owner repo)) →
  enriched action kind (ownerRepo action kind args rest).
Proof.
  intros Hrest. unfold ownerRepo.
  destruct (extractOwnerRepo args) as [[owner repo]|msg];
    [apply Hrest|apply enriched_Rejected].
Qed.

Lemma enriched_nonEmptyString name reason rest :
  (∀ x, enriched action kind (rest x)) →
  enriched action kind (nonEmptyString action kind args name reason rest).
Proof.
  intros Hrest. unfold nonEmptyString.
  case_bool_decide; [apply enriched_Rejected|apply Hrest].
Qed.

Lemma enriched_positiveNumber name reason rest :
  (∀ x, enriched action kind (rest x)) →
  enriched action kind (positiveNumber action kind args name reason rest).
Proof.
  intros Hrest. unfold positiveNumber.
  destruct (asFloat64 args name) as [x|]; [|apply enriched_Rejected].
  destruct (float64_le0 x); [apply enriched_Rejected|apply Hrest].
Qed.
End enrichment.

(** The handlers made of the three idioms alone. *)
Ltac enriched_steps :=
  repeat first
    [ apply enriched_Proceeds
    | apply enriched_Rejected
    | apply enriched_ownerRepo; intros ? ?
    | apply enriched_nonEmptyString; intros ?
    | apply enriched_positiveNumber; intros ? ].

Lemma enriched_listRepositories args :
  enriched ActionList "repository" (listRepositories args).
Proof.
  unfold listRepositories. apply enriched_nonEmptyString. intros scope.
  repeat case_bool_decide;
    unfold listMyRepositories, listOrgRepositories, searchRepositories;
    enriched_steps.
Qed.

Lemma enriched_addIssueLabels args :
  enriched ActionLink "issue_label" (addIssueLabels args).
Proof.
  unfold addIssueLabels. apply enriched_ownerRepo. intros owner repo.
  apply enriched_positiveNumber. intros index.
  destruct (asArray args "labels") as [labels|]; [|apply enriched_Rejected].
  case_bool_decide; enriched_steps.
Qed.

Lemma handlers_enriched v c args :
  c ∈ verb_cases v → enriched (verb_action v) (case_value c) (case_handler c args).
Proof.
  intros Hc.
  destruct v; cbn [verb_cases verb_action] in *;
    repeat (apply elem_of_cons in Hc as [->|Hc]);
    try (by apply elem_of_nil in Hc);
    cbn [case_value case_handler];
    lazymatch goal with
    | |- enriched _ _ (listRepositories _) => apply enriched_listRepositories
    | |- enriched _ _ (addIssueLabels _) => apply enriched_addIssueLabels
    | |- enriched _ _ (?h _) => unfold h; enriched_steps
    end.
Qed.

(** X3. Whatever a dispatcher routes to a handler, an error of the
    required-parameter checks of that handler is the enrichment of a reason
    with the documentation of the very operation that was asked for: the
    action of the dispatcher and the kind of the discriminator, not those
    of another handler. The error is ["Error: "], the reason, the line of
    introduction and the rendering of the registered entry. *)
Theorem handler_errors_document_the_operation
    (v : Verb) (keys : list string) (args : Args) (h err : string) :
  Handler v keys args = Routed h (Rejected err) →
  ∃ reason e,
    LookupManual (verb_action v) (asString args (discriminator v)) = Some e
    ∧ err = FormatValidationError (verb_action v) (asString args (discriminator v)) reason
    ∧ err = "Error: " +:+ reason +:+ nl +:+ nl +:+ "Here's how to use this operation:"
              +:+ nl +:+ nl +:+ FormatManualEntry e.
Proof.
  intros Hrouted.
  assert (∃ c, c ∈ verb_cases v ∧ case_value c = asString args (discriminator v)
               ∧ Rejected err = case_handler c args
               ∧ is_Some (LookupManual (verb_action v) (asString args (discriminator v))))
    as (c & Hc & Hd & Hout & [e He]).
  { destruct v;
      first [ apply resourceHandler_Routed in Hrouted as (Hne & Hsome & c & Hc & Hcv & Hh & Ho)
            | apply typeHandler_Routed in Hrouted as (Hne & Hsome & c & Hc & Hcv & Hh & Ho) ];
      by exists c. }
  destruct (handlers_enriched v c args Hc err (eq_sym Hout)) as [reason Herr].
  rewrite Hd in Herr. exists reason, e. split; [exact He|]. split; [exact Herr|].
  rewrite Herr. by apply FormatValidationError_found.
Qed.

(** The create dispatcher called for an issue without a title. *)
Lemma handler_errors_document_the_operation_witness :
  ∃ reason e,
    LookupManual ActionCreate "issue" = Some e
    ∧ FormatValidationError ActionCreate "issue" "title is required"
      = FormatValidationError ActionCreate "issue" reason
    ∧ FormatValidationError ActionCreate "issue" "title is required"
      = "Error: " +:+ reason +:+ nl +:+ nl +:+ "Here's how to use this operation:"
          +:+ nl +:+ nl +:+ FormatManualEntry e.
Proof.
  exact (handler_errors_document_the_operation Create source_order
           (list_to_map [("resource", VString "issue"); ("owner", VString "o");
                         ("repo", VString "r")])
           "createIssue"
           (FormatValidationError ActionCreate "issue" "title is required")
           eq_refl).
Defined.

(** ** The handlers and the manual, parameter by parameter *)

Section acceptance.
Variables (action : Action) (kind : string) (args : Args).



End acceptance.












(** ** The tool definitions and the dispatchers *)

(** X5. The values that the input schema of a verb's tool allows for the
    discriminator are the case values of the dispatcher's switch, in the
    same order, and are exactly the kinds registered for the verb. The
    schema requires the discriminator and admits further fields. So a call
    whose discriminator is one of the advertised values is never refused by
    the dispatcher: it is routed to a handler. *)
Theorem schema_enum_is_registry (v : Verb) :
  schema_enum (verb_tool v) (discriminator v) = case_value <$> verb_cases v
  ∧ (∀ kind, kind ∈ schema_enum (verb_tool v) (discriminator v)
             ↔ is_Some (LookupManual (verb_action v) kind))
  ∧ (∀ keys args,
       asString args (discriminator v) ∈ schema_enum (verb_tool v) (discriminator v) →
       ∃ c, c ∈ verb_cases v
            ∧ Handler v keys args = Routed (case_name c) (case_handler c args))
  ∧ discriminator v ∈ SchemaRequired (Schema (verb_tool v))
  ∧ AdditionalProperties (Schema (verb_tool v)) = true.
Proof.
  assert (schema_enum (verb_tool v) (discriminator v) = case_value <$> verb_cases v)
    as Henum by (destruct v; reflexivity).
  rewrite Henum. split; [reflexivity|]. split; [|split; [|split]].
  - intros kind. apply verb_cases_registered.
  - intros keys args Hd.
    pose proof Hd as [e He]%verb_cases_registered.
    apply case_of_elem in Hd as (c & Hc & Hcd).
    exists c. split; [exact Hc|].
    rewrite <- Hcd in He. by eapply Handler_routes.
  - destruct v; apply (bool_decide_unpack _); by vm_compute.
  - by destruct v.
Qed.

(** A call of the list tool with an advertised resource. *)
Lemma schema_enum_is_registry_witness :
  ∃ c, c ∈ verb_cases List_
       ∧ Handler List_ source_order {[ "resource" := VString "label" ]}
         = Routed (case_name c) (case_handler c {[ "resource" := VString "label" ]}).
Proof.
  refine (proj1 (proj2 (proj2 (schema_enum_is_registry List_)))
            source_order {[ "resource" := VString "label" ]} _).
  apply (bool_decide_unpack _). by vm_compute.
Defined.

Lemma ownerRepo_requires action kind (args : Args) rest field :
  field = "owner" ∨ field = "repo" →
  args !! field = None →
  ∃ err, ownerRepo action kind args rest = Rejected err.
Proof.
  intros Hfield Hnone.
  assert (asString args field = EmptyString) as Hempty
    by (apply asString_missing; by left).
  unfold ownerRepo, extractOwnerRepo.
  destruct Hfield as [-> | ->]; rewrite Hempty.
  - by eexists.
  - case_bool_decide; by eexists.
Qed.

(** X6. Every field that the input schema of a verb's tool marks as
    required, other than the discriminator that the dispatcher checks
    itself, is treated as required by every handler of the tool: owner and
    repo for create, get, edit, delete, link and unlink. The schema of list
    requires the resource alone, and rightly: listing the repositories of
    the authenticated user proceeds without owner and repo. *)
Theorem schema_required_is_required :
  (∀ v field c,
     field ∈ SchemaRequired (Schema (verb_tool v)) →
     field ≠ discriminator v →
     c ∈ verb_cases v →
     treats_as_required (case_handler c) field)
  ∧ SchemaRequired (Schema (verb_tool List_)) = ["resource"]
  ∧ Handler List_ source_order
      (list_to_map [("resource", VString "repository"); ("scope", VString "my")])
    = Routed "listRepositories" (Proceeds "ListMyRepos" []).
Proof.
  split; [|split; by vm_compute].
  intros v field c Hfield Hne Hc.
  assert (v ≠ List_ ∧ (field = "owner" ∨ field = "repo")) as [Hv Hor].
  { destruct v; cbn in Hfield, Hne;
      repeat (apply elem_of_cons in Hfield as [->|Hfield]);
      try (by apply elem_of_nil in Hfield); try done; split; auto; discriminate. }
  intros args Hnone.
  destruct v; try done; cbn [verb_cases] in Hc;
    repeat (apply elem_of_cons in Hc as [->|Hc]);
    try (by apply elem_of_nil in Hc);
    cbn [case_handler];
    match goal with |- ∃ err, ?h args = Rejected err => unfold h end;
    by apply (ownerRepo_requires _ _ _ _ field).
Qed.

(** The create tool: its schema requires [owner], and [createLabel] rejects
    every call without it. *)
Lemma schema_required_is_required_witness :
  treats_as_required createLabel "owner".
Proof.
  refine (proj1 schema_required_is_required Create "owner"
            (case_ "label" "createLabel" createLabel) _ _ _).
  - apply (bool_decide_unpack _). by vm_compute.
  - discriminate.
  - do 2 apply list_elem_of_further. apply list_elem_of_here.
Defined.

(** ** What the handlers go on to *)

Section proceeding.
Variables (ok : string → bool) (action : Action) (kind : string) (args : Args).

Lemma proceeds_only_Rejected err : proceeds_only ok (Rejected err).
Proof. intros method checked H. discriminate H. Qed.

Lemma proceeds_only_Proceeds method checked :
  ok method = true → proceeds_only ok (Proceeds method checked).
Proof. intros Hok method' checked' H. congruence. Qed.

Lemma proceeds_only_ownerRepo rest :
  (∀ owner repo, proceeds_only ok (rest owner repo)) →
  proceeds_only ok (ownerRepo action kind args rest).
Proof.
  intros Hrest. unfold ownerRepo.
  destruct (extractOwnerRepo args) as [[owner repo]|msg];
    [apply Hrest|apply proceeds_only_Rejected].
Qed.

Lemma proceeds_only_nonEmptyString name reason rest :
  (∀ x, proceeds_only ok (rest x)) →
  proceeds_only ok (nonEmptyString action kind args name reason rest).
Proof.
  intros Hrest. unfold nonEmptyString.
  case_bool_decide; [apply proceeds_only_Rejected|apply Hrest].
Qed.

Lemma proceeds_only_positiveNumber name reason rest :
  (∀ x, proceeds_only ok (rest x)) →
  proceeds_only ok (positiveNumber action kind args name reason rest).
Proof.
  intros Hrest. unfold positiveNumber.
  destruct (asFloat64 args name) as [x|]; [|apply proceeds_only_Rejected].
  destruct (float64_le0 x); [apply proceeds_only_Rejected|apply Hrest].
Qed.
End proceeding.

Ltac proceeds_steps :=
  repeat first
    [ apply proceeds_only_Rejected
    | apply proceeds_only_Proceeds; reflexivity
    | apply proceeds_only_ownerRepo; intros ? ?
    | apply proceeds_only_nonEmptyString; intros ?
    | apply proceeds_only_positiveNumber; intros ? ].

Lemma proceeds_only_listRepositories ok args :
  ok "ListMyRepos" = true → ok "ListOrgRepos" = true → ok "SearchRepos" = true →
  proceeds_only ok (listRepositories args).
Proof.
  intros Hmy Horg Hsearch.
  unfold listRepositories. apply proceeds_only_nonEmptyString. intros scope.
  repeat case_bool_decide;
    unfold listMyRepositories, listOrgRepositories, searchRepositories;
    repeat first
      [ apply proceeds_only_Rejected
      | apply proceeds_only_nonEmptyString; intros ?
      | apply proceeds_only_Proceeds; assumption ].
Qed.

Lemma proceeds_only_addIssueLabels ok args :
  ok "AddIssueLabels" = true → proceeds_only ok (addIssueLabels args).
Proof.
  intros Hok.
  unfold addIssueLabels. apply proceeds_only_ownerRepo. intros owner repo.
  apply proceeds_only_positiveNumber. intros index.
  destruct (asArray args "labels") as [labels|]; [|apply proceeds_only_Rejected].
  case_bool_decide; [apply proceeds_only_Rejected|by apply proceeds_only_Proceeds].
Qed.

Lemma handlers_proceed_as_annotated v c args :
  c ∈ verb_cases v →
  proceeds_only
    (λ method, Bool.eqb (reads_only method) (ReadOnlyHint (Annotations (verb_tool v))))
    (case_handler c args).
Proof.
  intros Hc.
  destruct v; cbn [verb_cases] in Hc;
    repeat (apply elem_of_cons in Hc as [->|Hc]);
    try (by apply elem_of_nil in Hc);
    cbn [case_handler];
    lazymatch goal with
    | |- proceeds_only _ (listRepositories _) =>
        apply proceeds_only_listRepositories; reflexivity
    | |- proceeds_only _ (addIssueLabels _) =>
        apply proceeds_only_addIssueLabels; reflexivity
    | |- proceeds_only _ (?h _) => unfold h; proceeds_steps
    end.
Qed.

(** X7. The read-only hint of each verb's tool is exact about the forge
    client. A handler of get or list, the two tools annotated read-only,
    goes on only to client methods that read (named [Get], [List],
    [Search], [MyGet], [MyList] and so on); a handler of create, edit,
    delete, link or unlink, none of them annotated read-only, never ends in
    one of those. *)
Theorem read_only_hint_is_exact
    (v : Verb) (keys : list string) (args : Args) (h method : string) (checked : list Arg) :
  Handler v keys args = Routed h (Proceeds method checked) →
  reads_only method = ReadOnlyHint (Annotations (verb_tool v))
  ∧ (ReadOnlyHint (Annotations (verb_tool v)) = true ↔ v = Get ∨ v = List_).
Proof.
  intros Hrouted. split.
  - assert (∃ c, c ∈ verb_cases v ∧ Proceeds method checked = case_handler c args)
      as (c & Hc & Hout).
    { destruct v;
        first [ apply resourceHandler_Routed in Hrouted as (Hd & Hs & c & Hc & Hcv & Hh & Ho)
              | apply typeHandler_Routed in Hrouted as (Hd & Hs & c & Hc & Hcv & Hh & Ho) ];
        by exists c. }
    apply Bool.eqb_prop.
    exact (handlers_proceed_as_annotated v c args Hc method checked (eq_sym Hout)).
  - destruct v; cbn; split; intros H;
      first [ discriminate H | reflexivity | by left | by right
            | destruct H as [H|H]; discriminate H ].
Qed.

(** Getting a repository: [getRepository] goes on to [GetRepo]. *)
Lemma read_only_hint_is_exact_witness :
  reads_only "GetRepo" = ReadOnlyHint (Annotations (verb_tool Get)).
Proof.
  exact (proj1 (read_only_hint_is_exact Get source_order
                  (list_to_map [("resource", VString "repository");
                                ("owner", VString "o"); ("repo", VString "r")])
                  "getRepository" "GetRepo" [AString "o"; AString "r"] eq_refl)).
Defined.

(** X8. [extractOwnerRepo] succeeds exactly when [owner] and [repo] both
    hold non-empty strings, and then returns them; a value of another type
    counts as absent. When it fails, the missing owner is reported first,
    the missing repo only when the owner is there. *)
Theorem extractOwnerRepo_spec (args : Args) :
  (∀ owner repo,
     extractOwnerRepo args = Ok (owner, repo)
     ↔ args !! "owner" = Some (VString owner) ∧ owner ≠ EmptyString
       ∧ args !! "repo" = Some (VString repo) ∧ repo ≠ EmptyString)
  ∧ (∀ msg,
       extractOwnerRepo args = Err msg
       ↔ (asString args "owner" = EmptyString ∧ msg = "owner is required")
         ∨ (asString args "owner" ≠ EmptyString ∧ asString args "repo" = EmptyString
            ∧ msg = "repo is required")).
Proof.
  unfold extractOwnerRepo. split.
  - intros owner repo. split.
    + repeat case_bool_decide; try discriminate. intros [= <- <-].
      unfold asString in *.
      destruct (args !! "owner") as [[| | |o| |]|]; try done.
      destruct (args !! "repo") as [[| | |r| |]|]; done.
    + intros (Ho & Hone & Hr & Hrne). unfold asString. rewrite Ho, Hr.
      by rewrite !bool_decide_eq_false_2.
  - intros msg. split.
    + repeat case_bool_decide; try discriminate; intros [= <-]; auto.
    + intros [[Ho ->]|(Ho & Hr & ->)].
      * by rewrite bool_decide_eq_true_2.
      * by rewrite bool_decide_eq_false_2, bool_decide_eq_true_2.
Qed.





(** ** The rows of the registry *)

Lemma starts_with_app head s :
  starts_with head s = true → s = head +:+ str_drop (String.length head) s.
Proof.
  unfold starts_with. intros H%bool_decide_eq_true.
  transitivity (str_take (String.length head) s +:+ str_drop (String.length head) s);
    [by rewrite str_take_drop|by rewrite H].
Qed.

Lemma occurs_contains t s : occurs t s = true → contains s t.
Proof.
  induction s as [|ch s IH]; simpl; intros [H|H]%orb_true_iff; try done.
  - apply starts_with_app in H. by exists EmptyString, (str_drop (String.length t) EmptyString).
  - apply starts_with_app in H.
    by exists EmptyString, (str_drop (String.length t) (String ch s)).
  - destruct (IH H) as (a & b & ->). by exists (String ch a), b.
Qed.

Lemma registry_rows_checked (check : Action * string * ManualEntry → bool) action kind e :
  forallb check registry_rows = true →
  LookupManual action kind = Some e →
  check (action, kind, e) = true.
Proof.
  intros Hall Hrow%LookupManual_row.
  rewrite forallb_forall in Hall. by apply Hall, list_elem_of_In.
Qed.

Lemma registry_rows_keyed : forallb keyed_row registry_rows = true.
Proof. by vm_compute. Qed.

Lemma verb_action_link v :
  verb_action v = ActionLink ∨ verb_action v = ActionUnlink ↔ v = Link ∨ v = Unlink.
Proof. destruct v; split; intros [H|H]; try discriminate H; auto. Qed.

Lemma keyed_fields v e kind :
  kind ≠ EmptyString →
  match v with
  | Link | Unlink =>
      bool_decide (EntryResource e = EmptyString) && bool_decide (EntryLinkType e = kind)
  | _ =>
      bool_decide (EntryResource e = kind) && bool_decide (EntryLinkType e = EmptyString)
  end = true →
  entry_kind e = kind
  ∧ (EntryResource e = EmptyString ↔ v = Link ∨ v = Unlink)
  ∧ (EntryLinkType e = EmptyString ↔ ¬ (v = Link ∨ v = Unlink)).
Proof.
  intros Hkind Hrow. unfold entry_kind.
  assert ((v = Link ∨ v = Unlink)
          ∧ EntryResource e = EmptyString ∧ EntryLinkType e = kind
          ∨ ¬ (v = Link ∨ v = Unlink)
            ∧ EntryResource e = kind ∧ EntryLinkType e = EmptyString) as Hcases.
  { destruct v; apply andb_true_iff in Hrow as [H1 H2];
      apply bool_decide_eq_true in H1; apply bool_decide_eq_true in H2;
      first [ left; split; [auto|split; assumption]
            | right; split; [intros [H|H]; discriminate H|split; assumption] ]. }
  destruct Hcases as [(Hv & Hr & Hl)|(Hv & Hr & Hl)]; rewrite Hr, Hl.
  - rewrite bool_decide_eq_false_2 by auto.
    split; [reflexivity|]. split; [tauto|]. split; [congruence|tauto].
  - rewrite bool_decide_eq_true_2 by exact Hkind.
    split; [reflexivity|]. split; [|tauto]. split; [congruence|tauto].
Qed.

(** X10. The key under which an entry is registered agrees with the
    entry's own fields: its action is the action of the key, and the kind
    of the key is its link type (the resource being empty) for link and
    unlink, its resource (the link type being empty) for the other verbs.
    So the rendering of a looked-up entry is headed by the action and the
    kind that were looked up. *)
Theorem registry_keys_match_entries (action : Action) (kind : string) (e : ManualEntry) :
  LookupManual action kind = Some e →
  EntryAction e = action
  ∧ entry_kind e = kind
  ∧ (EntryResource e = EmptyString ↔ action = ActionLink ∨ action = ActionUnlink)
  ∧ (EntryLinkType e = EmptyString ↔ ¬ (action = ActionLink ∨ action = ActionUnlink))
  ∧ ∃ rest, FormatManualEntry e = "## " +:+ action +:+ " " +:+ kind +:+ nl +:+ nl +:+ rest.
Proof.
  intros He.
  assert (kind ≠ EmptyString) as Hkind.
  { intros ->. by rewrite LookupManual_empty in He. }
  pose proof (registry_rows_checked keyed_row _ _ _ registry_rows_keyed He) as Hrow.
  unfold keyed_row in Hrow. apply andb_true_iff in Hrow as [Ha Hrow].
  apply bool_decide_eq_true in Ha.
  destruct (verb_of action) as [v|] eqn:Hv; [|discriminate Hrow].
  apply verb_of_Some in Hv.
  destruct (keyed_fields v e kind Hkind Hrow) as (Hk & Hres & Hlink).
  rewrite <- verb_action_link, Hv in Hres, Hlink.
  split; [exact Ha|]. split; [exact Hk|]. split; [exact Hres|]. split; [exact Hlink|].
  unfold FormatManualEntry. rewrite rows_loop.
  assert ((if bool_decide (EntryResource e ≠ EmptyString)
           then "## " +:+ EntryAction e +:+ " " +:+ EntryResource e +:+ nl +:+ nl
           else "## " +:+ EntryAction e +:+ " " +:+ EntryLinkType e +:+ nl +:+ nl)
          = "## " +:+ action +:+ " " +:+ kind +:+ nl +:+ nl) as ->.
  { rewrite Ha, <- Hk. unfold entry_kind.
    destruct (bool_decide (EntryResource e ≠ EmptyString)); reflexivity. }
  set (rows := concat_rows _).
  exists ((Description e +:+ nl +:+ nl) +:+ ("### Parameters" +:+ nl +:+ nl)
          +:+ ("| Name | Type | Required | Description |" +:+ nl)
          +:+ ("|------|------|----------|-------------|" +:+ nl)
          +:+ rows
          +:+ (nl +:+ "### Example" +:+ nl +:+ nl +:+ "```" +:+ nl +:+ Example e
               +:+ nl +:+ "```" +:+ nl)).
  by rewrite !str_app_assoc.
Qed.

(** The entry of link and issue_label. *)
Lemma registry_keys_match_entries_witness :
  ∃ e, LookupManual ActionLink "issue_label" = Some e
       ∧ EntryAction e = ActionLink ∧ entry_kind e = "issue_label".
Proof.
  eexists. split; [by vm_compute|].
  refine (let H := registry_keys_match_entries ActionLink "issue_label" _ _ in
          conj (proj1 H) (proj1 (proj2 H))).
  by vm_compute.
Defined.

Lemma registry_rows_exemplified : forallb example_row registry_rows = true.
Proof. by vm_compute. Qed.

Lemma registry_rows_params : forallb params_row registry_rows = true.
Proof. by vm_compute. Qed.

(** X11. The example of every registered entry is a call of the tool of
    its action, by the name in the tool's definition; it begins with the
    discriminator field of that tool set to the kind of the entry, and it
    gives a value to every parameter that the entry documents as
    required. *)
Theorem examples_call_their_operation (action : Action) (kind : string) (e : ManualEntry) :
  LookupManual action kind = Some e →
  ∃ v,
    verb_action v = action
    ∧ (∃ rest, Example e
               = ToolName (verb_tool v) +:+ "(" +:+ discriminator v +:+ "=" +:+ qt kind
                   +:+ rest)
    ∧ ∀ p, p ∈ Params e → Required p = true →
           contains (Example e) (", " +:+ Name p +:+ "=").
Proof.
  intros He.
  pose proof (registry_rows_checked example_row _ _ _ registry_rows_exemplified He) as Hrow.
  unfold example_row in Hrow.
  destruct (verb_of action) as [v|] eqn:Hv; [|discriminate Hrow].
  apply verb_of_Some in Hv. apply andb_true_iff in Hrow as [Hhead Hparams].
  exists v. split; [exact Hv|]. split.
  - apply starts_with_app in Hhead. eexists.
    rewrite Hhead at 1. by rewrite !str_app_assoc.
  - intros p Hp Hreq. rewrite forallb_forall in Hparams.
    apply list_elem_of_In, Hparams in Hp. rewrite Hreq in Hp.
    by apply occurs_contains.
Qed.

(** The example of edit and wiki_page: a call of [edit_gitea]. *)
Lemma examples_call_their_operation_witness :
  ∃ e, LookupManual ActionEdit "wiki_page" = Some e
       ∧ ∃ v, verb_action v = ActionEdit
              ∧ ∃ rest, Example e
                        = ToolName (verb_tool v) +:+ "(" +:+ discriminator v +:+ "="
                            +:+ qt "wiki_page" +:+ rest.
Proof.
  eexists. split; [by vm_compute|].
  destruct (examples_call_their_operation ActionEdit "wiki_page" _ ltac:(by vm_compute))
    as (v & Hv & Hrest & _).
  exists v. split; [exact Hv|exact Hrest].
Defined.

(** X12. The parameters of every registered entry have distinct names, so
    the table of the rendering has one row per name; no parameter is named
    like a discriminator field ([resource], [type]) or has an empty name;
    every parameter has one of the four types string, integer, boolean and
    array; and allowed values are listed for strings only. *)
Theorem params_well_formed (action : Action) (kind : string) (e : ManualEntry) :
  LookupManual action kind = Some e →
  NoDup (Name <$> Params e)
  ∧ ∀ p, p ∈ Params e →
      Type_ p ∈ param_types
      ∧ Name p ≠ "resource" ∧ Name p ≠ "type" ∧ Name p ≠ EmptyString
      ∧ (Enum p ≠ [] → Type_ p = "string").
Proof.
  intros He.
  pose proof (registry_rows_checked params_row _ _ _ registry_rows_params He) as Hrow.
  unfold params_row in Hrow. cbn [snd] in Hrow.
  apply andb_true_iff in Hrow as [Hnd Hall].
  apply bool_decide_eq_true in Hnd. split; [exact Hnd|].
  intros p Hp. rewrite forallb_forall in Hall.
  apply list_elem_of_In, Hall in Hp.
  apply andb_true_iff in Hp as [Hp Henum]. apply andb_true_iff in Hp as [Hty Hname].
  apply bool_decide_eq_true in Hty, Hname.
  split; [exact Hty|].
  repeat split.
  - intros H. apply Hname. rewrite H. apply list_elem_of_here.
  - intros H. apply Hname. rewrite H. apply list_elem_of_further, list_elem_of_here.
  - intros H. apply Hname. rewrite H. do 2 apply list_elem_of_further. apply list_elem_of_here.
  - intros Hne. apply orb_true_iff in Henum as [H|H]; apply bool_decide_eq_true in H;
      [contradiction|exact H].
Qed.

(** The entry of list and repository, the one without owner and repo. *)
Lemma params_well_formed_witness :
  ∃ e, LookupManual ActionList "repository" = Some e ∧ NoDup (Name <$> Params e).
Proof.
  eexists. split; [by vm_compute|].
  exact (proj1 (params_well_formed ActionList "repository" _ ltac:(by vm_compute))).
Defined.

(** ** The documentation tool *)

Lemma ManualImpl_Handler_level2 v keys kind other e :
  LookupManual (verb_action v) kind = Some e →
  ManualImpl_Handler keys (manual_query v kind other) = TextContent (FormatManualEntry e).
Proof.
  intros He.
  assert (kind ≠ EmptyString) as Hkind.
  { intros ->. by rewrite LookupManual_empty in He. }
  unfold ManualImpl_Handler.
  destruct v; cbn [manual_query ParamsAction ParamsResource ParamsType];
    cbn [verb_action] in *;
    rewrite (bool_decide_eq_false_2 (_ = EmptyString)) by discriminate;
    cbn [orb];
    rewrite (bool_decide_eq_false_2 _ Hkind), He; reflexivity.
Qed.

(** X13. For every registered pair, the documentation tool, asked for the
    pair (the kind in [type] for link and unlink, in [resource] for the
    other verbs, whatever the other of the two fields holds), returns the
    rendering of the entry; and that text is what every validation error of
    the pair ends with. What an error teaches is what the manual says. *)
Theorem manual_returns_what_errors_embed
    (v : Verb) (keys : list string) (kind other reason : string) (e : ManualEntry) :
  LookupManual (verb_action v) kind = Some e →
  ∃ text,
    ManualImpl_Handler keys (manual_query v kind other) = TextContent text
    ∧ text = FormatManualEntry e
    ∧ FormatValidationError (verb_action v) kind reason
      = "Error: " +:+ reason +:+ nl +:+ nl +:+ "Here's how to use this operation:"
          +:+ nl +:+ nl +:+ text.
Proof.
  intros He. exists (FormatManualEntry e).
  split; [by apply ManualImpl_Handler_level2|]. split; [reflexivity|].
  by apply FormatValidationError_found.
Qed.

(** The manual asked for unlink and issue_blocking, with a stray resource. *)
Lemma manual_returns_what_errors_embed_witness :
  ∃ text,
    ManualImpl_Handler source_order (manualParams "unlink" "label" "issue_blocking")
    = TextContent text
    ∧ FormatValidationError ActionUnlink "issue_blocking" "index is required"
      = "Error: " +:+ "index is required" +:+ nl +:+ nl
          +:+ "Here's how to use this operation:" +:+ nl +:+ nl +:+ text.
Proof.
  destruct (manual_returns_what_errors_embed Unlink source_order "issue_blocking" "label"
              "index is required" _ ltac:(by vm_compute)) as (text & H1 & _ & H2).
  exists text. split; [exact H1|exact H2].
Defined.

Lemma unknown_action_unregistered action kind :
  (∀ v, verb_action v ≠ action) → LookupManual action kind = None.
Proof.
  intros Hv. destruct (LookupManual action kind) as [e|] eqn:He; [|done].
  pose proof (registry_rows_checked keyed_row _ _ _ registry_rows_keyed He) as Hrow.
  unfold keyed_row in Hrow. apply andb_true_iff in Hrow as [_ Hrow].
  destruct (verb_of action) as [v|] eqn:Hverb; [|discriminate Hrow].
  apply verb_of_Some in Hverb. by destruct (Hv v).
Qed.

Lemma unknown_action_lists_nothing keys action :
  MapRange Manual keys → (∀ v, verb_action v ≠ action) →
  ListResourcesForAction keys action = [].
Proof.
  intros Hkeys Hv.
  destruct (ListResourcesForAction keys action) as [|r l] eqn:Hl; [done|].
  assert (r ∈ ListResourcesForAction keys action) as Hr by (rewrite Hl; left).
  apply (ListResourcesForAction_elem _ _ _ Hkeys) in Hr as [e He].
  by rewrite unknown_action_unregistered in He.
Qed.

(** X14. The documentation tool does not check its action. Asked for an
    action that is none of the seven verbs, without a resource, it returns
    no error but a table of resources without rows; asked for a resource
    of such an action, it returns the unknown-resource error with an empty
    valid set. The same holds of [LookupManual] and of
    [ListResourcesForAction]: nothing is registered for such an action. *)
Theorem manual_of_unknown_action (keys : list string) (action resource type : string) :
  MapRange Manual keys →
  action ≠ EmptyString →
  (∀ v, verb_action v ≠ action) →
  ListResourcesForAction keys action = []
  ∧ LookupManual action resource = None
  ∧ ManualImpl_Handler keys (manualParams action EmptyString type)
    = TextContent
        ("# " +:+ action +:+ "_gitea Resources" +:+ nl +:+ nl
         +:+ "| Resource | Description |" +:+ nl
         +:+ "|----------|-------------|" +:+ nl
         +:+ nl +:+ "Call `gitea_manual(action=" +:+ qt action +:+ ", resource="
         +:+ qt "<resource>" +:+ ")` for full documentation." +:+ nl)
  ∧ (resource ≠ EmptyString →
     ManualImpl_Handler keys (manualParams action resource type)
     = ToolError ("unknown resource '" +:+ resource +:+ "' for action '" +:+ action
                  +:+ "'. Valid resources: []")).
Proof.
  intros Hkeys Hne Hv.
  pose proof (unknown_action_lists_nothing keys action Hkeys Hv) as Hnil.
  pose proof (unknown_action_unregistered action resource Hv) as Hnone.
  assert (bool_decide (action = "link") || bool_decide (action = "unlink") = false) as Hlink.
  { apply orb_false_iff. split; apply bool_decide_eq_false; intros ->.
    - by destruct (Hv Link).
    - by destruct (Hv Unlink). }
  split; [exact Hnil|]. split; [exact Hnone|].
  unfold ManualImpl_Handler. cbn [ParamsAction ParamsResource ParamsType].
  rewrite (bool_decide_eq_false_2 _ Hne), Hlink. split.
  - rewrite bool_decide_eq_true_2 by reflexivity.
    unfold formatResourcesForAction. rewrite Hnil. cbn [fold_left].
    change (sort_Strings []) with (@nil string). cbn [fold_left].
    by rewrite !str_app_assoc.
  - intros Hres. rewrite (bool_decide_eq_false_2 _ Hres), Hnone, Hnil. reflexivity.
Qed.

(** The action [bogus]. *)
Lemma manual_of_unknown_action_witness :
  ManualImpl_Handler source_order (manualParams "bogus" "issue" EmptyString)
  = ToolError "unknown resource 'issue' for action 'bogus'. Valid resources: []".
Proof.
  refine (proj2 (proj2 (proj2 (manual_of_unknown_action source_order "bogus" "issue"
                                 EmptyString source_order_range _ _))) _);
    try discriminate.
  intros v. destruct v; discriminate.
Defined.

(** ** Numbers: from the JSON number to the [int64] of the client *)

Lemma digits2_pos_bounds (m : positive) :
  (2 ^ (Z.pos (digits2_pos m) - 1) ≤ Z.pos m < 2 ^ Z.pos (digits2_pos m))%Z.
Proof.
  induction m as [m IH|m IH|]; cbn [digits2_pos].
  - rewrite Pos2Z.inj_succ, (Pos2Z.inj_xI m).
    replace (Z.succ (Z.pos (digits2_pos m)) - 1)%Z with (Z.succ (Z.pos (digits2_pos m) - 1)) by lia.
    rewrite !Z.pow_succ_r by lia.
    set (a := (2 ^ (Z.pos (digits2_pos m) - 1))%Z) in *.
    set (b := (2 ^ Z.pos (digits2_pos m))%Z) in *. clearbody a b. lia.
  - rewrite Pos2Z.inj_succ, (Pos2Z.inj_xO m).
    replace (Z.succ (Z.pos (digits2_pos m)) - 1)%Z with (Z.succ (Z.pos (digits2_pos m) - 1)) by lia.
    rewrite !Z.pow_succ_r by lia.
    set (a := (2 ^ (Z.pos (digits2_pos m) - 1))%Z) in *.
    set (b := (2 ^ Z.pos (digits2_pos m))%Z) in *. clearbody a b. lia.
  - by vm_compute.
Qed.

Lemma iter_xO_pos (m d : positive) :
  Z.pos (Pos.iter xO m d) = (Z.pos m * 2 ^ Z.pos d)%Z.
Proof.
  induction d as [|d IH] using Pos.peano_ind.
  - cbn [Pos.iter]. rewrite Pos2Z.inj_xO. change (2 ^ 1)%Z with 2%Z. lia.
  - rewrite Pos.iter_succ, Pos2Z.inj_xO, IH, Pos2Z.inj_succ, Z.pow_succ_r by lia. lia.
Qed.

Lemma iter_xO_digits (m d : positive) :
  digits2_pos (Pos.iter xO m d) = (digits2_pos m + d)%positive.
Proof.
  induction d as [|d IH] using Pos.peano_ind.
  - cbn [Pos.iter digits2_pos]. lia.
  - rewrite Pos.iter_succ. cbn [digits2_pos]. rewrite IH. lia.
Qed.

Lemma binary_round_aux_canonical (s : bool) (m : positive) (e : Z) :
  fexp 53 1024 (Z.pos (digits2_pos m) + e) = e →
  (e ≤ 971)%Z →
  binary_round_aux 53 1024 s (Z.pos m) e loc_Exact = S754_finite s m e.
Proof.
  intros Hcanon He.
  unfold binary_round_aux, shr_fexp.
  cbn [Zdigits2 shr_record_of_loc]. rewrite Hcanon, Z.sub_diag.
  cbn [shr shr_m loc_of_shr_record round_nearest_even Zdigits2 shr_record_of_loc].
  rewrite Hcanon, Z.sub_diag. cbn [shr shr_m].
  change (1024 - 53)%Z with 971%Z.
  by rewrite (proj2 (Z.leb_le e 971) He).
Qed.

(** The [float64] of an integer below [2 ^ 53] in magnitude holds that
    integer exactly. *)
Lemma binary_round_small (s : bool) (m : positive) :
  (Z.pos m < 2 ^ 53)%Z →
  ∃ m' e', binary_round 53 1024 s m 0 = S754_finite s m' e'
           ∧ (e' ≤ 0)%Z ∧ Z.pos m' = (Z.pos m * 2 ^ (- e'))%Z.
Proof.
  intros Hm.
  pose proof (digits2_pos_bounds m) as [Hlo Hhi].
  assert (Z.pos (digits2_pos m) ≤ 53)%Z as Hd.
  { destruct (Z_le_gt_dec (Z.pos (digits2_pos m)) 53) as [H|H]; [exact H|].
    assert (2 ^ 53 ≤ 2 ^ (Z.pos (digits2_pos m) - 1))%Z by (apply Z.pow_le_mono_r; lia).
    lia. }
  assert (fexp 53 1024 (Z.pos (digits2_pos m) + 0) = Z.pos (digits2_pos m) - 53)%Z as Hfexp.
  { unfold fexp, emin. lia. }
  unfold binary_round. rewrite Hfexp. unfold shl_align.
  destruct (Z.pos (digits2_pos m) - 53 - 0)%Z as [|d|d] eqn:Hshift; [|lia|].
  - exists m, 0%Z. split; [|split; [lia|change (2 ^ (- 0))%Z with 1%Z; lia]].
    apply binary_round_aux_canonical; [|lia]. rewrite Hfexp. lia.
  - exists (Pos.iter xO m d), (Z.pos (digits2_pos m) - 53)%Z.
    split; [|split; [lia|]].
    + apply binary_round_aux_canonical; [|lia].
      rewrite iter_xO_digits. unfold fexp, emin. lia.
    + rewrite iter_xO_pos. f_equal. f_equal. lia.
Qed.

Lemma int64_float64_of_Z (n : Z) :
  (- 2 ^ 53 < n < 2 ^ 53)%Z →
  int64 (float64_of_Z n) = n ∧ float64_le0 (float64_of_Z n) = bool_decide (n ≤ 0)%Z.
Proof.
  intros Hn. unfold float64_of_Z, binary_normalize.
  destruct n as [|m|m].
  - by vm_compute.
  - destruct (binary_round_small false m) as (m' & e' & -> & He & Hm'); [lia|].
    split; [|by rewrite bool_decide_eq_false_2 by lia].
    unfold int64.
    assert ((if (0 <=? e')%Z then (Z.pos m' * 2 ^ e')%Z else (Z.pos m' / 2 ^ (- e'))%Z)
            = Z.pos m) as ->.
    { destruct (0 <=? e')%Z eqn:Hle.
      - apply Z.leb_le in Hle. assert (e' = 0%Z) as -> by lia.
        rewrite Hm'. change (2 ^ (- 0))%Z with 1%Z. change (2 ^ 0)%Z with 1%Z. lia.
      - rewrite Hm'. apply Z.div_mul. apply Z.pow_nonzero; lia. }
    rewrite bool_decide_eq_true_2; [done|]. unfold int64_min, int64_max. lia.
  - destruct (binary_round_small true m) as (m' & e' & -> & He & Hm'); [lia|].
    split; [|by rewrite bool_decide_eq_true_2 by lia].
    unfold int64.
    assert ((if (0 <=? e')%Z then (Z.pos m' * 2 ^ e')%Z else (Z.pos m' / 2 ^ (- e'))%Z)
            = Z.pos m) as ->.
    { destruct (0 <=? e')%Z eqn:Hle.
      - apply Z.leb_le in Hle. assert (e' = 0%Z) as -> by lia.
        rewrite Hm'. change (2 ^ (- 0))%Z with 1%Z. change (2 ^ 0)%Z with 1%Z. lia.
      - rewrite Hm'. apply Z.div_mul. apply Z.pow_nonzero; lia. }
    rewrite bool_decide_eq_true_2; [done|]. unfold int64_min, int64_max. lia.
Qed.

(** X15. An integer sent as a JSON number arrives as the [float64] nearest
    to it. For an integer [n] below [2 ^ 53] in magnitude, the check of a
    required number rejects exactly [n <= 0], and what the handler passes to
    the client as [int64] is [n] itself: nothing is lost on the way from the
    call to the client. So [get_gitea] of an issue with a positive [index]
    asks the client for that issue. *)
Theorem integer_parameters_reach_the_client
    (action : Action) (kind name reason : string) (args : Args)
    (rest : spec_float → Outcome) (n : Z) :
  (- 2 ^ 53 < n < 2 ^ 53)%Z →
  args !! name = Some (VNumber (float64_of_Z n)) →
  int64 (float64_of_Z n) = n
  ∧ positiveNumber action kind args name reason rest
    = (if bool_decide (n ≤ 0)%Z
       then Rejected (FormatValidationError action kind reason)
       else rest (float64_of_Z n))
  ∧ (∀ owner repo,
       name = "index" → extractOwnerRepo args = Ok (owner, repo) → (0 < n)%Z →
       getIssue args = Proceeds "GetIssue" [AString owner; AString repo; AInt64 n]).
Proof.
  intros Hn Harg. destruct (int64_float64_of_Z n Hn) as [Hint Hle].
  assert (positiveNumber action kind args name reason rest
          = (if bool_decide (n ≤ 0)%Z
             then Rejected (FormatValidationError action kind reason)
             else rest (float64_of_Z n))) as Hpos.
  { unfold positiveNumber, asFloat64. rewrite Harg, Hle. reflexivity. }
  split; [exact Hint|]. split; [exact Hpos|].
  intros owner repo -> Hor Hn0.
  unfold getIssue, ownerRepo. rewrite Hor.
  unfold positiveNumber, asFloat64. rewrite Harg, Hle.
  rewrite bool_decide_eq_false_2 by lia. by rewrite Hint.
Qed.

(** Issue 42 of o/r. *)
Lemma integer_parameters_reach_the_client_witness :
  getIssue (list_to_map [("owner", VString "o"); ("repo", VString "r");
                         ("index", VNumber (float64_of_Z 42))])
  = Proceeds "GetIssue" [AString "o"; AString "r"; AInt64 42].
Proof.
  refine (proj2 (proj2 (integer_parameters_reach_the_client
                          ActionGet "issue" "index" "index is required"
                          (list_to_map [("owner", VString "o"); ("repo", VString "r");
                                        ("index", VNumber (float64_of_Z 42))])
                          (λ _, Rejected EmptyString) 42 _ _)) "o" "r" _ _ _).
  - lia.
  - by vm_compute.
  - reflexivity.
  - by vm_compute.
  - lia.
Defined.

(** X16. The check of a required number is made on the [float64], before
    the fraction is discarded: a number strictly between 0 and 1 is accepted
    as an index, and the client is asked for issue 0. *)
Theorem fractional_index_reaches_the_client_as_zero
    (args : Args) (owner repo : string) (m : positive) (e : Z) :
  extractOwnerRepo args = Ok (owner, repo) →
  asFloat64 args "index" = Some (S754_finite false m e) →
  (Z.pos m < 2 ^ (- e))%Z →
  getIssue args = Proceeds "GetIssue" [AString owner; AString repo; AInt64 0].
Proof.
  intros Hor Harg Hlt.
  assert (e < 0)%Z as He.
  { destruct (Z_lt_ge_dec e 0) as [H|H]; [exact H|].
    assert (2 ^ (- e) ≤ 1)%Z; [|lia].
    destruct (Z.eq_dec e 0%Z) as [->|Hne]; [by vm_compute|].
    rewrite Z.pow_neg_r by lia. lia. }
  unfold getIssue, ownerRepo. rewrite Hor.
  unfold positiveNumber. rewrite Harg.
  change (float64_le0 (S754_finite false m e)) with false. cbv iota.
  unfold int64.
  rewrite (proj2 (Z.leb_gt 0 e) He).
  rewrite Z.div_small by lia.
  rewrite bool_decide_eq_true_2; [done|]. by vm_compute.
Qed.

(** The index 0.5, as the decoder of JSON yields it. *)
Lemma fractional_index_reaches_the_client_as_zero_witness :
  getIssue (list_to_map [("owner", VString "o"); ("repo", VString "r");
                         ("index", VNumber (S754_finite false 4503599627370496 (-53)))])
  = Proceeds "GetIssue" [AString "o"; AString "r"; AInt64 0].
Proof.
  apply (fractional_index_reaches_the_client_as_zero _ "o" "r" 4503599627370496 (-53)).
  - by vm_compute.
  - by vm_compute.
  - by vm_compute.
Defined.
